(** * A shallow embedding of [server/server.py]

    The gesture server receives comma-separated sensor records over UDP,
    classifies each one into a tilt gesture, and either dispatches the action
    bound to the gesture (live mode) or hands the gesture to the experiment
    runner (test mode).  This development embeds the decoder and ingestion
    loop ([Server.get_data]), the classifier ([Server.get_tilt_kind]), the
    dispatcher ([Server.execute_command]), the action table
    ([Server.interaction_funcs]), the activation toggle and the experiment
    runner ([Server.start_experiment]), and states the properties of the
    specification over them.

    Conventions.
    - Python [float] is IEEE binary64: Rocq's primitive [float], with
      [PrimFloat.sub], [PrimFloat.abs] and [PrimFloat.ltb] for [-], [abs]
      and [<] ([a > b] is [ltb b a]).
    - [str] is [string]; a [dict] keyed by strings is a [gmap string _] and
      a failed lookup is a [KeyError].
    - A Python exception is the [Raise] outcome of the [Res] monad.  The
      only handler in the file, [except (KeyboardInterrupt, SystemExit)],
      catches none of the exceptions modelled here, so a [Raise] inside
      [get_data] ends the ingestion thread.
    - Wall-clock time in the experiment runner is a rational number of
      seconds that advances only inside [time.sleep]. *)

From Stdlib Require Import ZArith QArith Qround Lqa Lia Floats String Ascii List.
From stdpp Require Import base option list gmap strings.
Import ListNotations.

Local Open Scope string_scope.

(** ** Exceptions and outcomes *)

Inductive Exn : Type :=
  | ValueError            (* float() on an unparsable string *)
  | KeyError (k : string) (* dict lookup of a missing key *)
  | TypeError.            (* call with the wrong number of arguments *)

Inductive Res (A : Type) : Type :=
  | Ok (a : A)
  | Raise (e : Exn)
  | OutOfFuel.
Arguments Ok {A} a.
Arguments Raise {A} e.
Arguments OutOfFuel {A}.

Definition bind {A B : Type} (m : Res A) (k : A → Res B) : Res B :=
  match m with
  | Ok a => k a
  | Raise e => Raise e
  | OutOfFuel => OutOfFuel
  end.

Notation "'do' x <- m ; k" := (bind m (fun x => k))
  (at level 10, x pattern, m at level 100, k at level 200).

(** ** Sensor data *)

Record Vec3 : Type := mkVec3 { vx : float; vy : float; vz : float }.

Definition zero3 : Vec3 := mkVec3 0 0 0.

(** The [data] dictionary built for each record in [get_data]. *)
Record Sample : Type := mkSample {
  Timestep : float;
  Action : string;
  Gyroscope : Vec3;
  Acceleration : Vec3;
  Rotation : Vec3
}.

(** ** String operations of the decoder *)

(** [s.replace(' ', '')] *)
Fixpoint remove_spaces (s : string) : string :=
  match s with
  | EmptyString => EmptyString
  | String c rest =>
      if Ascii.eqb c " " then remove_spaces rest else String c (remove_spaces rest)
  end.

(** [s.split(sep)] for a one-character separator: never the empty list,
    empty fields are kept. *)
Fixpoint split (sep : ascii) (s : string) : list string :=
  match s with
  | EmptyString => [EmptyString]
  | String c rest =>
      if Ascii.eqb c sep then EmptyString :: split sep rest
      else match split sep rest with
           | hd :: tl => String c hd :: tl
           | [] => [String c EmptyString]
           end
  end.

(** ** Python's [float(str)] on ASCII text

    The decoder is stated over an arbitrary [pyfloat : string → option float]
    ([None] is [ValueError]); [float_of_string] below is the instance that
    follows the grammar of the language reference on ASCII input, rounding
    the decimal value to the nearest binary64 (ties to even). *)

Module PyFloat.

Definition is_digit (c : ascii) : bool :=
  let n := nat_of_ascii c in (48 <=? n)%nat && (n <=? 57)%nat.

Definition digit_val (c : ascii) : Z := Z.of_nat (nat_of_ascii c - 48).

(** Whitespace removed by the leading and trailing strip: tab, line feed,
    vertical tab, form feed, carriage return and space. *)
Definition is_space (c : ascii) : bool :=
  let n := nat_of_ascii c in
  ((9 <=? n)%nat && (n <=? 13)%nat) || (n =? 32)%nat.

Definition lower (c : ascii) : ascii :=
  let n := nat_of_ascii c in
  if (65 <=? n)%nat && (n <=? 90)%nat then ascii_of_nat (n + 32) else c.

Fixpoint drop_spaces (s : list ascii) : list ascii :=
  match s with
  | c :: rest => if is_space c then drop_spaces rest else s
  | [] => []
  end.

Definition strip (s : list ascii) : list ascii :=
  rev (drop_spaces (rev (drop_spaces s))).

(** The rest of a [digitpart], after a first digit: [(["_"] digit)*].
    [acc] is the value and [cnt] the number of digits read so far. *)
Fixpoint more_digits (acc : Z) (cnt : Z) (s : list ascii) : Z * Z * list ascii :=
  match s with
  | c :: rest =>
      if is_digit c then more_digits (10 * acc + digit_val c) (cnt + 1) rest
      else if Ascii.eqb c "_" then
        match rest with
        | d :: rest' =>
            if is_digit d then more_digits (10 * acc + digit_val d) (cnt + 1) rest'
            else (acc, cnt, s)
        | [] => (acc, cnt, s)
        end
      else (acc, cnt, s)
  | [] => (acc, cnt, s)
  end.

(** [digitpart ::= digit (["_"] digit)*], continuing the value [acc]. *)
Definition digitpart (acc : Z) (s : list ascii) : option (Z * Z * list ascii) :=
  match s with
  | c :: rest =>
      if is_digit c then Some (more_digits (10 * acc + digit_val c) 1 rest) else None
  | [] => None
  end.

(** [number ::= [digitpart] "." digitpart | digitpart ["."]]: the digits
    as one integer, and how many of them follow the point. *)
Definition number (s : list ascii) : option (Z * Z * list ascii) :=
  match s with
  | "."%char :: rest => digitpart 0 rest
  | _ =>
      match digitpart 0 s with
      | Some (m, _, "."%char :: rest) =>
          match digitpart m rest with
          | Some r => Some r
          | None => Some (m, 0%Z, rest)
          end
      | Some (m, _, rest) => Some (m, 0%Z, rest)
      | None => None
      end
  end.

Definition sign (s : list ascii) : bool * list ascii :=
  match s with
  | "-"%char :: rest => (true, rest)
  | "+"%char :: rest => (false, rest)
  | _ => (false, s)
  end.

(** [exponent ::= ("e" | "E") [sign] digitpart], absent when [s] is empty. *)
Definition exponent (s : list ascii) : option Z :=
  match s with
  | [] => Some 0%Z
  | c :: rest =>
      if Ascii.eqb (lower c) "e" then
        let '(neg, rest') := sign rest in
        match digitpart 0 rest' with
        | Some (e, _, []) => Some (if neg then (- e)%Z else e)
        | _ => None
        end
      else None
  end.

(** The binary64 nearest to [m * 10 ^ e], for [0 <= m]. *)
Definition of_decimal (neg : bool) (m e : Z) : float :=
  SF2Prim
    match m with
    | Zpos p =>
        if (0 <=? e)%Z
        then binary_normalize prec emax (if neg then - (m * 10 ^ e) else m * 10 ^ e)%Z 0 neg
        else SFdiv prec emax (S754_finite neg p 0)
                             (S754_finite false (Z.to_pos (10 ^ (- e))) 0)
    | _ => S754_zero neg
    end.

Definition float_of_string (str : string) : option float :=
  let '(neg, body) := sign (strip (list_ascii_of_string str)) in
  let word := string_of_list_ascii (map lower body) in
  if String.eqb word "inf" || String.eqb word "infinity"
  then Some (if neg then neg_infinity else infinity)
  else if String.eqb word "nan" then Some nan
  else
    match number body with
    | Some (m, frac, rest) =>
        match exponent rest with
        | Some e => Some (of_decimal neg m (e - frac))
        | None => None
        end
    | None => None
    end.

End PyFloat.

(** ** The server object *)

(** One entry of [self.settings]: [{'Interaction': ..., 'Type': ...}]. *)
Record Binding : Type := mkBinding { Interaction : string; Typ : string }.

(** The action methods of [Server]. *)
Inductive ActionFn : Type :=
  | not_used | play_pause | previous | next | stop
  | increase_vol | decrease_vol | increase_seek | decrease_seek
  | scroll_up | scroll_down | mute.

(** The action sink: the keys sent through [keyboard.send] (newest first)
    and the master volume level of the output device. *)
Record Sink : Type := mkSink { keys_sent : list string; master_volume : float }.

(** What the "General" tab shows: the connection indicator driven by the
    loop-local [connected] of [get_data], the sensor readouts, and
    [current_action_var].  The widgets of the other tabs, among them the
    progress bar, the progress label and the button states that
    [start_experiment] writes, are not represented. *)
Record Display : Type := mkDisplay {
  connected : bool;
  readouts : option (Vec3 * Vec3 * Vec3);
  current_action_var : string
}.

Record Server : Type := mkServer {
  settings : gmap string Binding;
  active_status : bool;
  test_status : bool;
  last_action_timestep : float;
  last_action : string;
  gyroscope_history : Vec3;
  (* [__init__] creates [accellerometer_history]; [get_tilt_kind] assigns
     [accelerometer_history], a different attribute. *)
  accellerometer_history : Vec3;
  accelerometer_history : option Vec3;
  rotation_history : Vec3;
  sink : Sink;
  (* trace of the action methods called, with their arguments, newest first *)
  calls : list (ActionFn * list string);
  display : Display
}.

Definition set_active_status (b : bool) (s : Server) : Server :=
  mkServer (settings s) b (test_status s) (last_action_timestep s) (last_action s)
    (gyroscope_history s) (accellerometer_history s) (accelerometer_history s)
    (rotation_history s) (sink s) (calls s) (display s).

Definition set_test_status (b : bool) (s : Server) : Server :=
  mkServer (settings s) (active_status s) b (last_action_timestep s) (last_action s)
    (gyroscope_history s) (accellerometer_history s) (accelerometer_history s)
    (rotation_history s) (sink s) (calls s) (display s).

Definition set_last_action (t : float) (a : string) (s : Server) : Server :=
  mkServer (settings s) (active_status s) (test_status s) t a
    (gyroscope_history s) (accellerometer_history s) (accelerometer_history s)
    (rotation_history s) (sink s) (calls s) (display s).

Definition set_histories (g a r : Vec3) (s : Server) : Server :=
  mkServer (settings s) (active_status s) (test_status s) (last_action_timestep s)
    (last_action s) g (accellerometer_history s) (Some a) r
    (sink s) (calls s) (display s).

Definition set_sink (k : Sink) (c : list (ActionFn * list string)) (s : Server) : Server :=
  mkServer (settings s) (active_status s) (test_status s) (last_action_timestep s)
    (last_action s) (gyroscope_history s) (accellerometer_history s)
    (accelerometer_history s) (rotation_history s) k c (display s).

Definition set_display (d : Display) (s : Server) : Server :=
  mkServer (settings s) (active_status s) (test_status s) (last_action_timestep s)
    (last_action s) (gyroscope_history s) (accellerometer_history s)
    (accelerometer_history s) (rotation_history s) (sink s) (calls s) d.

(** Everything of the server but what the window shows. *)
Definition core (s : Server) : Server := set_display (mkDisplay false None "") s.

Definition not_used_binding : Binding := mkBinding "Not Used" "Not Used".

(** [populate_settings] when no settings file is found. *)
Definition default_settings : gmap string Binding :=
  list_to_map
    (map (fun k => (k, not_used_binding))
       ["LSTU"; "LSTD"; "LSTL"; "LSTR"; "RSTU"; "RSTD"; "RSTL"; "RSTR";
        "TSTU"; "TSTD"; "TSTL"; "TSTR"; "BSTU"; "BSTD"; "BSTL"; "BSTR"]).

(** The attributes set by [__init__], for a settings table [st] and the
    volume level [vol] of the output device. *)
Definition init (st : gmap string Binding) (vol : float) : Server :=
  mkServer st false false 0 "" zero3 zero3 None zero3
    (mkSink [] vol) [] (mkDisplay false None "N/A").

(** ** The classifier: [Server.get_tilt_kind] *)

(** The four tilt directions and the suffix the classifier returns for
    each. *)
Inductive Tilt : Type := TiltUp | TiltDown | TiltLeft | TiltRight.

Definition tilt_code (t : Tilt) : string :=
  match t with
  | TiltUp => "TU"
  | TiltDown => "TD"
  | TiltLeft => "TL"
  | TiltRight => "TR"
  end.

Definition get_tilt_kind (s : Server) (gyro_data acc_data rot_data : Vec3)
  : string * Server :=
  let hist := rotation_history s in
  let tilt :=
    if PrimFloat.ltb (abs (vy rot_data - vy hist)) (abs (vx rot_data - vx hist))
    then if PrimFloat.ltb 0 (vx rot_data - vx hist) then "TR" else "TL"
    else if PrimFloat.ltb 0 (vy rot_data - vy hist) then "TD" else "TU" in
  (tilt, set_histories gyro_data acc_data rot_data s).

(** ** The action table: [Server.interaction_funcs] *)

Definition interaction_table : list (string * (ActionFn * bool)) :=
    [("Not Used",    (not_used,      false));
     ("Play/Pause",  (play_pause,    false));
     ("Previous",    (previous,      false));
     ("Next",        (next,          false));
     ("Stop",        (stop,          false));
     ("Volume +",    (increase_vol,  true));
     ("Volume -",    (decrease_vol,  true));
     ("Seek +",      (increase_seek, true));
     ("Seek -",      (decrease_seek, true));
     ("Scroll UP",   (scroll_up,     true));
     ("Scroll DOWN", (scroll_down,   true));
     ("Mute",        (mute,          false))].

Definition interaction_funcs : gmap string (ActionFn * bool) :=
  list_to_map interaction_table.

(** Number of parameters besides [self]. *)
Definition arity (f : ActionFn) : nat :=
  match f with
  | increase_vol | decrease_vol | increase_seek | decrease_seek
  | scroll_up | scroll_down => 1
  | _ => 0
  end.

Definition keyboard_send (key : string) (k : Sink) : Sink :=
  mkSink (key :: keys_sent k) (master_volume k).

Definition set_master_volume (level : float) (k : Sink) : Sink :=
  mkSink (keys_sent k) level.

(** The body of each action method; its argument, when it has one, is not
    used. *)
Definition body (f : ActionFn) (k : Sink) : Sink :=
  match f with
  | play_pause => keyboard_send "space" k
  | previous => keyboard_send "left" k
  | next => keyboard_send "right" k
  | increase_vol => set_master_volume (master_volume k + 2)%float k
  | decrease_vol => set_master_volume (master_volume k - 2)%float k
  | scroll_up => keyboard_send "up" k
  | scroll_down => keyboard_send "down" k
  | not_used | stop | increase_seek | decrease_seek | mute => k
  end.

(** A call of method [f] on [args]: a [TypeError] unless the argument
    count is right. *)
Definition call (f : ActionFn) (args : list string) (s : Server) : Res Server :=
  if Nat.eqb (length args) (arity f)
  then Ok (set_sink (body f (sink s)) ((f, args) :: calls s) s)
  else Raise TypeError.

(** [d[k]] *)
Definition getitem {V : Type} (d : gmap string V) (k : string) : Res V :=
  match d !! k with
  | Some v => Ok v
  | None => Raise (KeyError k)
  end.

(** ** The dispatcher: [Server.execute_command] *)

(** [data['Action'] + self.get_tilt_kind(...)]: the gesture key, and the
    server with its histories overwritten. *)
Definition classify (s : Server) (data : Sample) : string * Server :=
  let r := get_tilt_kind s (Gyroscope data) (Acceleration data) (Rotation data) in
  (Action data +:+ fst r, snd r).

Definition execute_command (s : Server) (data : Sample) : Res Server :=
  let '(current_interaction, s) := classify s data in
  let s := set_display (mkDisplay (connected (display s)) (readouts (display s))
                          current_interaction) s in
  if active_status s then
    do b <- getitem (settings s) current_interaction;
    do fn <- getitem interaction_funcs (Interaction b);
    if snd fn then call (fst fn) [Typ b] s else call (fst fn) [] s
  else if test_status s then
    Ok (set_last_action (Timestep data) current_interaction s)
  else Ok s.

(** ** The decoder and ingestion loop: [Server.get_data] *)

Section Ingestion.

(** Python's [float] on strings; [None] stands for [ValueError]. *)
Variable pyfloat : string → option float.

Definition to_float (field : string) : Res float :=
  match pyfloat field with
  | Some x => Ok x
  | None => Raise ValueError
  end.

(** [message_string[i]], on a list already known to have 12 entries. *)
Definition item (message_string : list string) (i : nat) : string :=
  nth i message_string "".

(** The construction of [data], fields converted in source order. *)
Definition build_data (m : list string) : Res Sample :=
  do t <- to_float (item m 0);
  let a := item m 1 in
  do gx <- to_float (item m 2);
  do gy <- to_float (item m 3);
  do gz <- to_float (item m 4);
  do ax <- to_float (item m 5);
  do ay <- to_float (item m 6);
  do az <- to_float (item m 7);
  do rx <- to_float (item m 8);
  do ry <- to_float (item m 9);
  do rz <- to_float (item m 10);
  Ok (mkSample t a (mkVec3 gx gy gz) (mkVec3 ax ay az) (mkVec3 rx ry rz)).

(** One iteration of [while True], for the received datagram decoded to
    [message_string].  [Ok] is the state with which the loop goes on to
    the next datagram; [Raise] leaves the loop. *)
Definition handle_datagram (s : Server) (message_string : string) : Res Server :=
  if String.eqb message_string "" then Ok s
  else
    let s := set_display (mkDisplay true (readouts (display s))
                            (current_action_var (display s))) s in
    let fields := split "," (remove_spaces message_string) in
    if negb (Nat.eqb (length fields) 12) then Ok s
    else
      do data <- build_data fields;
      let s := set_display
                 (mkDisplay true
                    (Some (Gyroscope data, Acceleration data, Rotation data))
                    (current_action_var (display s))) s in
      execute_command s data.

(** The loop over the datagrams received so far. *)
Fixpoint get_data (s : Server) (stream : list string) : Res Server :=
  match stream with
  | [] => Ok s
  | message_string :: rest =>
      do s' <- handle_datagram s message_string;
      get_data s' rest
  end.

End Ingestion.

(** ** The mode flags *)

(** [toggle_activation], the command of the "Enable Interaction" button. *)
Definition toggle_activation (s : Server) : Server :=
  if active_status s then set_active_status false s else set_active_status true s.

(** The first and the last assignment of [start_experiment]. *)
Definition begin_experiment (s : Server) : Server := set_test_status true s.
Definition end_experiment (s : Server) : Server := set_test_status false s.

(** What can happen to the server object, one event at a time: the user
    presses the activation button, the runner thread starts or finishes a
    run, the ingestion thread handles a datagram. *)
Inductive Event : Type :=
  | Toggle
  | StartRun
  | FinishRun
  | Datagram (message_string : string).

Definition step (pyfloat : string → option float) (s : Server) (e : Event)
  : Res Server :=
  match e with
  | Toggle => Ok (toggle_activation s)
  | StartRun => Ok (begin_experiment s)
  | FinishRun => Ok (end_experiment s)
  | Datagram m => handle_datagram pyfloat s m
  end.

Fixpoint run (pyfloat : string → option float) (s : Server) (es : list Event)
  : Res Server :=
  match es with
  | [] => Ok s
  | e :: rest => do s' <- step pyfloat s e; run pyfloat s' rest
  end.

(** A state is reachable when some sequence of events leads to it from the
    state built by [__init__]. *)
Definition reachable (pyfloat : string → option float) (s : Server) : Prop :=
  ∃ st vol es, run pyfloat (init st vol) es = Ok s.

(** ** The experiment runner: [Server.start_experiment] *)

Definition ACTIONS : list string :=
  ["Not Used"; "Play/Pause"; "Previous"; "Next"; "Stop"; "Volume +"; "Volume -";
   "Seek +"; "Seek -"; "Scroll UP"; "Scroll DOWN"; "Mute"].

(** The keys of [self.interaction_widgets], in insertion order. *)
Definition interaction_widgets : list string :=
  [nth 1 ACTIONS ""; nth 3 ACTIONS ""; nth 2 ACTIONS ""; nth 4 ACTIONS "";
   nth 11 ACTIONS ""; "btn2"; "btn3"; "volume_required"; "seek_required"].

(** What the runner thread takes from outside during a run.  Polls (the
    executions of the [while] body) are numbered through the whole run.
    The ingestion thread runs beside the runner; of what it writes the
    runner reads [last_action] only, once per poll, so the thread is
    represented by the value it has left there. *)
Record Env : Type := mkEnv {
  (* the index drawn by [random.choice] in trial [i] *)
  choice : nat → nat;
  (* [self.interaction_mode.get()] in trial [i] *)
  interaction_mode : nat → Z;
  (* the gesture the ingestion thread has stored in [last_action] since the
     previous poll, if any, when poll [k] reads it *)
  arrival : nat → option string;
  (* how long the [time.sleep(0.1)] after poll [k] takes, in seconds *)
  sleep_time : nat → Q
}.

(** The runner's view of the world: the server object, the clock, and the
    number of polls done. *)
Record World : Type := mkWorld { srv : Server; now : Q; polls : nat }.

(** One row of [experiment_results]. *)
Record Row : Type := mkRow {
  required : string;
  elapsed : Q;
  found : bool;
  mode : Z
}.

(** [round(x, 0)] on an exact value: nearest integer, ties to even. *)
Definition round_half_even (q : Q) : Z :=
  let f := Qfloor q in
  match (q - inject_Z f ?= 1 # 2)%Q with
  | Lt => f
  | Gt => (f + 1)%Z
  | Eq => if Z.even f then f else (f + 1)%Z
  end.

(** [round(x, 3)] *)
Definition round3 (q : Q) : Q := Qmake (round_half_even (q * 1000)%Q) 1000.

(** The ingestion thread's write, seen at the next poll. *)
Definition deliver (a : option string) (s : Server) : Server :=
  match a with
  | Some g => set_last_action (last_action_timestep s) g s
  | None => s
  end.

Definition clear_last_action (s : Server) : Server :=
  set_last_action (last_action_timestep s) "" s.

(** [time.sleep(0.1)] after poll [polls w]. *)
Definition sleep (env : Env) (s : Server) (w : World) : World :=
  mkWorld s (now w + sleep_time env (polls w))%Q (S (polls w)).

(** The [while not terminate and (time.time()-start) <= 3] loop;
    [terminate] is never set.  The result is [found]. *)
Fixpoint poll (fuel : nat) (env : Env) (interaction : string) (start : Q)
    (w : World) : Res (bool * World) :=
  match fuel with
  | O => OutOfFuel
  | S fuel =>
      if Qle_bool (now w - start)%Q 3%Q then
        let s := deliver (arrival env (polls w)) (srv w) in
        if String.eqb (last_action s) "" then
          poll fuel env interaction start (sleep env s w)
        else
          do b <- getitem (settings s) (last_action s);
          if String.eqb (Interaction b) interaction
          then Ok (true, mkWorld (clear_last_action s) (now w) (S (polls w)))
          else poll fuel env interaction start (sleep env (clear_last_action s) w)
      else Ok (false, w)
  end.

(** [random.choice(list(self.interaction_widgets.items()))] in trial [i]:
    the key of the chosen item. *)
Definition chosen (env : Env) (i : nat) : string :=
  nth (choice env i mod length interaction_widgets) interaction_widgets "".

(** The body of [for i in range(0, 10)]. *)
Definition trial (fuel : nat) (env : Env) (i : nat) (w : World) : Res (Row * World) :=
  let interaction := chosen env i in
  let start := now w in
  do r <- poll fuel env interaction start w;
  let _end := now (snd r) in
  let result := (_end - start)%Q in
  Ok (mkRow interaction (round3 result) (fst r) (interaction_mode env i), snd r).

Fixpoint trials (fuel : nat) (env : Env) (range : list nat)
    (experiment_results : list Row) (w : World) : Res (list Row * World) :=
  match range with
  | [] => Ok (experiment_results, w)
  | i :: rest =>
      do r <- trial fuel env i w;
      trials fuel env rest (experiment_results ++ [fst r]) (snd r)
  end.

(** [start_experiment] up to the rows handed to the CSV writer.  [fuel]
    bounds the polls of one trial. *)
Definition start_experiment (fuel : nat) (env : Env) (w : World)
  : Res (list Row * World) :=
  let w := mkWorld (begin_experiment (srv w)) (now w) (polls w) in
  do r <- trials fuel env (seq 0 10) [] w;
  Ok (fst r, mkWorld (end_experiment (srv (snd r))) (now (snd r)) (polls (snd r))).

(** ** The settings tab: [modify_setting] *)

Definition set_settings (st : gmap string Binding) (s : Server) : Server :=
  mkServer st (active_status s) (test_status s) (last_action_timestep s)
    (last_action s) (gyroscope_history s) (accellerometer_history s)
    (accelerometer_history s) (rotation_history s) (sink s) (calls s) (display s).

(** The third argument of [modify_setting]: the option menus pass the
    literal ['Interaction'] or ['Type']. *)
Inductive Field : Type := FInteraction | FType.

(** [binding[field] = value] *)
Definition set_field (field : Field) (value : string) (b : Binding) : Binding :=
  match field with
  | FInteraction => mkBinding value (Typ b)
  | FType => mkBinding (Interaction b) value
  end.

(** The keys of [self.settings_widgets], one per row of the settings tab. *)
Definition layout_keys : list string :=
  ["LSTU"; "LSTD"; "LSTL"; "LSTR"; "RSTU"; "RSTD"; "RSTL"; "RSTR";
   "TSTU"; "TSTD"; "TSTL"; "TSTR"; "BSTU"; "BSTD"; "BSTL"; "BSTR"].

(** [modify_setting(var, key, field)] where [var.get()] is [value]: the
    server with the setting written, and the state the function gives to
    the type menu of the row.  The write comes first, so it has happened
    also when a later lookup raises. *)
Definition modify_setting (value key : string) (field : Field) (s : Server)
  : Res (Server * string) :=
  do b <- getitem (settings s) key;
  let s := set_settings (<[key := set_field field value b]> (settings s)) s in
  do b' <- getitem (settings s) key;
  do fn <- getitem interaction_funcs (Interaction b');
  if bool_decide (key ∈ layout_keys)
  then Ok (s, if snd fn then "enabled" else "disabled")
  else Raise (KeyError key).

(** ** Vocabulary of the properties *)

(** The interaction kinds that take the parameter kind, and those that
    take nothing. *)
Definition parameterized_kinds : list string :=
  ["Volume +"; "Volume -"; "Seek +"; "Seek -"; "Scroll UP"; "Scroll DOWN"].

Definition plain_kinds : list string :=
  ["Not Used"; "Play/Pause"; "Previous"; "Next"; "Stop"; "Mute"].

(** The positions of [message_string] that go through [float]. *)
Definition numeric_fields : list nat := [0; 2; 3; 4; 5; 6; 7; 8; 9; 10]%nat.

(** An outcome up to what the window shows. *)
Definition res_core (r : Res Server) : Res Server :=
  match r with
  | Ok s => Ok (core s)
  | Raise e => Raise e
  | OutOfFuel => OutOfFuel
  end.

(** Reading [a] from [last_action] does not raise: it is empty or a key of
    the settings. *)
Definition readable (st : gmap string Binding) (a : string) : Prop :=
  a = "" ∨ is_Some (st !! a).

(** Reading [a] from [last_action] neither raises nor matches the required
    interaction. *)
Definition misses (st : gmap string Binding) (interaction a : string) : Prop :=
  a = "" ∨ ∃ b, st !! a = Some b ∧ Interaction b ≠ interaction.

(** [n] tenths of a second. *)
Fixpoint tenths (n : nat) : Q :=
  match n with
  | O => 0
  | S n => tenths n + (1 # 10)
  end.

(** ** Sample inputs *)


(** Two samples and two servers that agree on the zone, on rotation x and
    y and on the x and y of the rotation history, and on nothing else. *)
Definition sample_a : Sample :=
  mkSample 1 "LS" (mkVec3 1 2 3) (mkVec3 4 5 6) (mkVec3 7 8 9).

Definition sample_b : Sample :=
  mkSample 2 "LS" (mkVec3 (-1) 0 nan) (mkVec3 0 infinity 1) (mkVec3 7 8 (-9)).

Definition server_b : Server :=
  mkServer ∅ true true 5 "RSTU" (mkVec3 9 9 9) (mkVec3 8 8 8) (Some (mkVec3 7 7 7))
    (mkVec3 0 0 6) (mkSink ["up"] 3) [] (mkDisplay true None "LSTU").

(** A run of the experiment: every sleep takes a tenth of a second,
    [random.choice] always draws the first widget ("Play/Pause"), the mode
    is "Interactive Test", and the ingestion thread stores the gesture
    "LSTU", bound to "Play/Pause", before the fourth poll. *)
Definition settings_demo : gmap string Binding :=
  <["LSTU" := mkBinding "Play/Pause" "Constant"]> default_settings.

Definition env_demo : Env :=
  mkEnv (fun _ => 0%nat) (fun _ => 2%Z)
    (fun k => if Nat.eqb k 3 then Some "LSTU" else None)
    (fun _ => (1 # 10)%Q).

Definition world_demo : World := mkWorld (init settings_demo 0) 0 0.

(** A run in which no gesture arrives. *)
Definition env_quiet : Env :=
  mkEnv (fun i => i) (fun _ => 1%Z) (fun _ => None) (fun _ => (1 # 10)%Q).

Definition world_quiet : World := mkWorld (init default_settings 0) 0 0.

Definition rows_of (r : Res (list Row * World)) : option (list Row) :=
  match r with
  | Ok (rows, _) => Some rows
  | _ => None
  end.

(** ** Further vocabulary and inputs *)

(** The number of occurrences of [c] in [s]. *)
Fixpoint count_char (c : ascii) (s : string) : nat :=
  match s with
  | EmptyString => O
  | String d rest => (if Ascii.eqb d c then 1 else 0) + count_char c rest
  end.

(** The zones of the settings tab and the tilt suffixes. *)
Definition zones : list string := ["LS"; "RS"; "TS"; "BS"].
Definition tilt_codes : list string := ["TU"; "TD"; "TL"; "TR"].

(** The kinds whose method sends one key, with the key. *)
Definition key_kinds : list (string * string) :=
  [("Play/Pause", "space"); ("Previous", "left"); ("Next", "right");
   ("Scroll UP", "up"); ("Scroll DOWN", "down")].

(** The kinds whose method body is [pass]. *)
Definition idle_kinds : list string :=
  ["Not Used"; "Stop"; "Seek +"; "Seek -"; "Mute"].

(** [n] times the longest trial, [3 + g] seconds. *)
Fixpoint trial_budget (g : Q) (n : nat) : Q :=
  match n with
  | O => 0
  | S n => trial_budget g n + (3 + g)
  end.



(** A run in which every sleep takes four seconds, so that each trial
    polls once and times out, evaluated. *)
Definition env_slow : Env :=
  mkEnv (fun i => i) (fun _ => 1%Z) (fun _ => None) (fun _ => 4%Q).

Definition slow_run :=
  match start_experiment 2 env_slow world_quiet with
  | Ok r => r
  | _ => ([], world_quiet)
  end.

Definition slow_outcome := Eval vm_compute in slow_run.

(** The demo run, with the gesture of a sample from a zone "XX", which the
    settings do not know, stored before the fourth poll. *)
Definition env_unknown : Env :=
  mkEnv (fun _ => 0%nat) (fun _ => 2%Z)
    (fun k => if Nat.eqb k 3 then Some "XXTU" else None)
    (fun _ => (1 # 10)%Q).

(** A server in live mode whose "LSTD" gesture scrolls down. *)
Definition server_scroll : Server :=
  toggle_activation
    (init (<["LSTD" := mkBinding "Scroll DOWN" "Steps"]> default_settings) 0).

(** * Properties *)

(** ** Comparison of binary64 values *)

Lemma SFcompare_antisym (x y : spec_float) :
  SFcompare y x = option_map CompOpp (SFcompare x y).
Proof.
  destruct x as [sx|sx| |sx mx ex], y as [sy|sy| |sy my ey]; simpl;
    try reflexivity;
    try (destruct sx; reflexivity);
    try (destruct sy; reflexivity);
    try (destruct sx, sy; reflexivity).
  rewrite (Z.compare_antisym ex ey).
  change (Pos.compare_cont Eq my mx) with (Pos.compare my mx).
  change (Pos.compare_cont Eq mx my) with (Pos.compare mx my).
  rewrite (Pos.compare_antisym mx my).
  destruct sx, sy; simpl; try reflexivity;
    destruct (ex ?= ey)%Z; simpl; try reflexivity;
    destruct (mx ?= my)%positive; reflexivity.
Qed.

(** [a < b] excludes [b < a]. *)
Lemma ltb_asym (a b : float) :
  PrimFloat.ltb a b = true → PrimFloat.ltb b a = false.
Proof.
  rewrite !FloatAxioms.ltb_spec. unfold SFltb.
  rewrite (SFcompare_antisym (Prim2SF a) (Prim2SF b)).
  destruct (SFcompare (Prim2SF a) (Prim2SF b)) as [[]|]; simpl; congruence.
Qed.

(** [a == b] excludes [b < a]. *)
Lemma eqb_not_ltb (a b : float) :
  PrimFloat.eqb a b = true → PrimFloat.ltb b a = false.
Proof.
  rewrite FloatAxioms.eqb_spec, FloatAxioms.ltb_spec. unfold SFeqb, SFltb.
  rewrite (SFcompare_antisym (Prim2SF a) (Prim2SF b)).
  destruct (SFcompare (Prim2SF a) (Prim2SF b)) as [[]|]; simpl; congruence.
Qed.

(** ** The classifier *)

(** C3: the tilt is decided by comparing [|rot.x - hist.x|] with
    [|rot.y - hist.y|]: when the x magnitude is strictly larger the tilt is
    Right for a positive x delta and Left otherwise; when the y magnitude is
    larger or the two are equal the tilt is Down for a positive y delta and
    Up otherwise. *)
Theorem get_tilt_kind_compares_deltas (s : Server) (gyro acc rot : Vec3) :
  let dx := (vx rot - vx (rotation_history s))%float in
  let dy := (vy rot - vy (rotation_history s))%float in
  let tilt := fst (get_tilt_kind s gyro acc rot) in
  (PrimFloat.ltb (abs dy) (abs dx) = true →
     tilt = tilt_code (if PrimFloat.ltb 0 dx then TiltRight else TiltLeft)) ∧
  (PrimFloat.ltb (abs dx) (abs dy) = true ∨ PrimFloat.eqb (abs dx) (abs dy) = true →
     tilt = tilt_code (if PrimFloat.ltb 0 dy then TiltDown else TiltUp)).
Proof.
  intros dx dy tilt. subst tilt. unfold get_tilt_kind. cbn [fst].
  fold dx dy. split.
  - intros Hx. rewrite Hx. destruct (PrimFloat.ltb 0 dx); reflexivity.
  - intros Hy.
    assert (Hno : PrimFloat.ltb (abs dy) (abs dx) = false).
    { destruct Hy as [Hlt | Heq]; [apply ltb_asym | apply eqb_not_ltb]; assumption. }
    rewrite Hno. destruct (PrimFloat.ltb 0 dy); reflexivity.
Qed.

(** The tie-break on a concrete sample: equal magnitudes on both axes go
    to the y branch. *)
Example tie_goes_to_y :
  fst (get_tilt_kind (init default_settings 0) zero3 zero3 (mkVec3 2 (-2) 0)) = "TU"
  ∧ fst (get_tilt_kind (init default_settings 0) zero3 zero3 (mkVec3 (-2) 2 0)) = "TD".
Proof. split; reflexivity. Qed.

(** A NaN delta compares false both ways: neither premise of the law
    holds, and the code takes the [else] branches. *)
Example nan_delta_takes_else_branches :
  fst (get_tilt_kind (init default_settings 0) zero3 zero3 (mkVec3 nan 1 0)) = "TD"
  ∧ fst (get_tilt_kind (init default_settings 0) zero3 zero3 (mkVec3 nan nan 0)) = "TU".
Proof. split; reflexivity. Qed.

(** The classifier overwrites the three histories with the sample, and
    nothing else. *)
Lemma get_tilt_kind_state (s : Server) (gyro acc rot : Vec3) :
  snd (get_tilt_kind s gyro acc rot) = set_histories gyro acc rot s.
Proof. reflexivity. Qed.

(** C10: the gesture key depends only on the action zone, on the x and y
    components of the sample's rotation and on the x and y components of
    the stored rotation history; gyroscope, acceleration, rotation z and
    the other histories do not influence it. *)
Theorem classify_depends_on_zone_and_rotation_xy (s1 s2 : Server) (d1 d2 : Sample) :
  Action d1 = Action d2 →
  vx (Rotation d1) = vx (Rotation d2) →
  vy (Rotation d1) = vy (Rotation d2) →
  vx (rotation_history s1) = vx (rotation_history s2) →
  vy (rotation_history s1) = vy (rotation_history s2) →
  fst (classify s1 d1) = fst (classify s2 d2).
Proof.
  intros Ha Hx Hy Hhx Hhy. unfold classify, get_tilt_kind. cbn [fst].
  rewrite Ha, Hx, Hy, Hhx, Hhy. reflexivity.
Qed.

Lemma classify_depends_on_zone_and_rotation_xy_witness :
  fst (classify (init default_settings 0) sample_a) = fst (classify server_b sample_b).
Proof.
  apply (classify_depends_on_zone_and_rotation_xy
           (init default_settings 0) server_b sample_a sample_b); reflexivity.
Defined.

(** ** The action table and the dispatcher *)

Lemma interaction_funcs_elem (name : string) (fn : ActionFn * bool) :
  interaction_funcs !! name = Some fn → (name, fn) ∈ interaction_table.
Proof. apply elem_of_list_to_map_2. Qed.

Ltac table_cases H :=
  apply interaction_funcs_elem in H; unfold interaction_table in H;
  repeat (apply elem_of_cons in H; destruct H as [H | H]);
  [ injection H as -> -> .. | apply elem_of_nil in H; destruct H ].

(** Every entry's flag says how many arguments its method takes. *)
Lemma interaction_funcs_arity (name : string) (fn : ActionFn * bool) :
  interaction_funcs !! name = Some fn →
  arity (fst fn) = (if snd fn then 1 else 0)%nat.
Proof. intros H. table_cases H; reflexivity. Qed.

Lemma interaction_funcs_flag (name : string) (fn : ActionFn * bool) :
  interaction_funcs !! name = Some fn →
  (snd fn = true ↔ name ∈ parameterized_kinds)
  ∧ (snd fn = false ↔ name ∈ plain_kinds).
Proof.
  intros H. table_cases H; cbn [snd];
    (split; split; intros H; try reflexivity; try discriminate H;
     first [ apply (bool_decide_unpack _); reflexivity
           | exfalso; revert H; apply (bool_decide_unpack _); reflexivity ]).
Qed.

Lemma interaction_funcs_total (name : string) :
  name ∈ (parameterized_kinds ++ plain_kinds)%list → is_Some (interaction_funcs !! name).
Proof.
  intros H. unfold parameterized_kinds, plain_kinds in H. cbn [app] in H.
  repeat (apply elem_of_cons in H; destruct H as [-> | H]);
    [ eexists; reflexivity .. | apply elem_of_nil in H; destruct H ].
Qed.

(** What a live dispatch does once both lookups succeed. *)
Lemma execute_command_live (s : Server) (data : Sample) (b : Binding)
    (fn : ActionFn * bool) :
  active_status s = true →
  settings s !! fst (classify s data) = Some b →
  interaction_funcs !! Interaction b = Some fn →
  ∃ s', execute_command s data = Ok s'
        ∧ calls s' = (fst fn, if snd fn then [Typ b] else []) :: calls s
        ∧ sink s' = body (fst fn) (sink s).
Proof.
  intros Ha Hb Hf. pose proof (interaction_funcs_arity _ _ Hf) as Har.
  unfold execute_command, classify in *. cbn [fst snd] in *.
  unfold get_tilt_kind in *. cbn [fst snd set_display set_histories active_status settings] in *.
  rewrite Ha. unfold getitem. rewrite Hb. cbn [bind]. rewrite Hf. cbn [bind].
  unfold call. destruct (snd fn); rewrite Har; cbn; eexists; repeat split; reflexivity.
Qed.

(** C8: the flag of the table is true for exactly Volume +/-, Seek +/- and
    Scroll UP/DOWN and false for the six other kinds, and a live dispatch
    tests it before the call: the method is called with no argument when
    the flag is false and with the binding's ['Type'] when it is true. *)
Theorem parameterized_flag_gates_the_call :
  (∀ name fn, interaction_funcs !! name = Some fn →
     (snd fn = true ↔ name ∈ parameterized_kinds)
     ∧ (snd fn = false ↔ name ∈ plain_kinds))
  ∧ (∀ name, name ∈ (parameterized_kinds ++ plain_kinds)%list →
       is_Some (interaction_funcs !! name))
  ∧ (∀ (s : Server) (data : Sample) (b : Binding) (fn : ActionFn * bool),
       active_status s = true →
       settings s !! fst (classify s data) = Some b →
       interaction_funcs !! Interaction b = Some fn →
       ∃ s', execute_command s data = Ok s'
             ∧ calls s' = (fst fn, if snd fn then [Typ b] else []) :: calls s).
Proof.
  split; [exact interaction_funcs_flag | split; [exact interaction_funcs_total |]].
  intros s data b fn Ha Hb Hf.
  destruct (execute_command_live s data b fn Ha Hb Hf) as (s' & He & Hc & _).
  exists s'. split; assumption.
Qed.

(** C7: a gesture bound to "Not Used", dispatched in live mode, reaches
    [not_used] only: no key is sent and the volume is not touched. *)
Theorem not_used_binding_leaves_sink (s : Server) (data : Sample) (b : Binding) :
  active_status s = true →
  settings s !! fst (classify s data) = Some b →
  Interaction b = "Not Used" →
  ∃ s', execute_command s data = Ok s'
        ∧ sink s' = sink s
        ∧ calls s' = (not_used, []) :: calls s.
Proof.
  intros Ha Hb Hi.
  assert (Hf : interaction_funcs !! Interaction b = Some (not_used, false))
    by (rewrite Hi; reflexivity).
  destruct (execute_command_live s data b _ Ha Hb Hf) as (s' & He & Hc & Hk).
  exists s'. repeat split; assumption.
Qed.

Lemma not_used_binding_leaves_sink_witness :
  ∃ s', execute_command (toggle_activation (init default_settings 3))
          (mkSample 1 "LS" zero3 zero3 (mkVec3 0 5 0)) = Ok s'
        ∧ sink s' = sink (toggle_activation (init default_settings 3))
        ∧ calls s' = (not_used, []) :: calls (toggle_activation (init default_settings 3)).
Proof.
  apply (not_used_binding_leaves_sink (toggle_activation (init default_settings 3))
           (mkSample 1 "LS" zero3 zero3 (mkVec3 0 5 0)) not_used_binding);
    reflexivity.
Defined.

(** ** The mode flags *)

(** C2, as the specification states it, fails: pressing "Enable
    Interaction" and then starting an experiment leaves both flags set. *)
Lemma both_flags_set_is_reachable :
  ∃ s, reachable PyFloat.float_of_string s
       ∧ active_status s = true ∧ test_status s = true.
Proof.
  exists (begin_experiment (toggle_activation (init default_settings 0))).
  split; [| split; reflexivity].
  exists default_settings, 0%float, [Toggle; StartRun]. reflexivity.
Qed.

(** C2, amended: each of [toggle_activation] and the runner writes its own
    flag and leaves the other alone, so the flags are independent; what
    the dispatcher guarantees is that one sample is never treated both
    ways.  With [active_status] set the action bound to the gesture is
    called, with or without the type argument by its flag, and neither
    [last_action] nor [last_action_timestep] is written, whatever
    [test_status] is.  With [active_status] clear no action method is
    called and the sink is not touched; the gesture and its timestep are
    recorded when [test_status] is set, and nothing is recorded when both
    flags are clear. *)
Theorem dispatch_gives_live_priority (s s' : Server) (data : Sample) :
  execute_command s data = Ok s' →
  (test_status (toggle_activation s) = test_status s
   ∧ active_status (toggle_activation s) = negb (active_status s)
   ∧ active_status (begin_experiment s) = active_status s
   ∧ active_status (end_experiment s) = active_status s)
  ∧ active_status s' = active_status s
  ∧ test_status s' = test_status s
  ∧ (active_status s = true →
       (∃ (b : Binding) (fn : ActionFn * bool),
          settings s !! fst (classify s data) = Some b
          ∧ interaction_funcs !! Interaction b = Some fn
          ∧ calls s' = (fst fn, if snd fn then [Typ b] else []) :: calls s
          ∧ sink s' = body (fst fn) (sink s))
       ∧ last_action s' = last_action s
       ∧ last_action_timestep s' = last_action_timestep s)
  ∧ (active_status s = false →
       sink s' = sink s ∧ calls s' = calls s
       ∧ (test_status s = true →
            last_action s' = fst (classify s data)
            ∧ last_action_timestep s' = Timestep data)
       ∧ (test_status s = false →
            last_action s' = last_action s
            ∧ last_action_timestep s' = last_action_timestep s)).
Proof.
  intros He. split.
  { unfold toggle_activation. destruct (active_status s) eqn:Ha; cbn; rewrite ?Ha; auto. }
  unfold execute_command, classify, get_tilt_kind in He.
  cbn [fst snd set_display set_histories active_status test_status] in He.
  destruct (active_status s) eqn:Ha.
  - unfold getitem in He.
    destruct (settings _ !! _) as [b|] eqn:Eb; [| discriminate He]. cbn [bind] in He.
    destruct (interaction_funcs !! Interaction b) as [fn|] eqn:Ef; [| discriminate He].
    cbn [bind] in He. unfold call in He.
    destruct (snd fn) eqn:Eflag;
      match type of He with
      | (if ?c then _ else _) = _ => destruct c; [| discriminate He]
      end;
      injection He as <-;
      cbn [active_status test_status last_action last_action_timestep sink calls
           set_sink set_display set_histories];
      rewrite ?Ha;
      (split; [reflexivity |]); (split; [reflexivity |]);
      (split; [| discriminate]); intros _;
      (split; [| split; reflexivity]);
      exists b, fn; rewrite Eflag;
      (split; [first [reflexivity | exact Eb] |]);
      (split; [first [reflexivity | exact Ef] |]); split; reflexivity.
  - destruct (test_status s) eqn:Ht; injection He as <-;
      cbn [active_status test_status last_action last_action_timestep sink calls
           set_last_action set_display set_histories];
      rewrite ?Ha, ?Ht;
      (split; [reflexivity |]); (split; [reflexivity |]);
      (split; [discriminate |]); intros _;
      (split; [reflexivity |]); (split; [reflexivity |]);
      split; intros H; try discriminate H; split; reflexivity.
Qed.

Lemma dispatch_gives_live_priority_witness :
  let s := begin_experiment (toggle_activation (init default_settings 0)) in
  let data := mkSample 1 "LS" zero3 zero3 (mkVec3 0 5 0) in
  let s' := set_sink (sink s) [(not_used, [])]
              (set_display (mkDisplay false None "LSTD")
                 (set_histories zero3 zero3 (mkVec3 0 5 0) s)) in
  (test_status (toggle_activation s) = test_status s
   ∧ active_status (toggle_activation s) = negb (active_status s)
   ∧ active_status (begin_experiment s) = active_status s
   ∧ active_status (end_experiment s) = active_status s)
  ∧ active_status s' = active_status s
  ∧ test_status s' = test_status s
  ∧ (active_status s = true →
       (∃ (b : Binding) (fn : ActionFn * bool),
          settings s !! fst (classify s data) = Some b
          ∧ interaction_funcs !! Interaction b = Some fn
          ∧ calls s' = (fst fn, if snd fn then [Typ b] else []) :: calls s
          ∧ sink s' = body (fst fn) (sink s))
       ∧ last_action s' = last_action s
       ∧ last_action_timestep s' = last_action_timestep s)
  ∧ (active_status s = false →
       sink s' = sink s ∧ calls s' = calls s
       ∧ (test_status s = true →
            last_action s' = fst (classify s data)
            ∧ last_action_timestep s' = Timestep data)
       ∧ (test_status s = false →
            last_action s' = last_action s
            ∧ last_action_timestep s' = last_action_timestep s)).
Proof.
  intros s data s'. apply (dispatch_gives_live_priority s s' data). reflexivity.
Defined.

(** ** The decoder and the ingestion loop *)

Example float_of_string_accepts :
  map PyFloat.float_of_string ["0.5"; "5"; "-1e3"; "1_0.5"; ".5"; "5."; "+.5E+1"; "-INF"]
  = [Some 0.5; Some 5; Some (-1000); Some 10.5; Some 0.5; Some 5; Some 5;
     Some neg_infinity]%float.
Proof. reflexivity. Qed.

Example float_of_string_rejects :
  map PyFloat.float_of_string [""; "x"; "."; "1e"; "1__0"; "_1"; "1_"; "0x10"; "1,5"]
  = [None; None; None; None; None; None; None; None; None].
Proof. reflexivity. Qed.

(** Of the control characters only tab to carriage return are stripped. *)
Example float_of_string_strips_ascii_whitespace :
  PyFloat.float_of_string (String (ascii_of_nat 9) "1 ") = Some 1%float
  ∧ PyFloat.float_of_string (String (ascii_of_nat 28) "1") = None.
Proof. split; reflexivity. Qed.

Example split_keeps_empty_fields :
  split "," (remove_spaces " a, ,b ,") = ["a"; ""; "b"; ""].
Proof. reflexivity. Qed.

Section IngestionProperties.

Variable pyfloat : string → option float.

Lemma twelve_fields_not_empty (m : string) :
  length (split "," (remove_spaces m)) = 12%nat → String.eqb m "" = false.
Proof. destruct m; [discriminate | reflexivity]. Qed.

(** [build_data] raises [ValueError] as soon as one numeric field does not
    parse. *)
Lemma build_data_raises (fields : list string) (i : nat) :
  i ∈ numeric_fields →
  pyfloat (item fields i) = None →
  build_data pyfloat fields = Raise ValueError.
Proof.
  intros Hi Hnone. unfold build_data, to_float.
  repeat
    (match goal with
     | |- context [pyfloat (item fields ?k)] =>
         destruct (pyfloat (item fields k)) eqn:?; cbn [bind]; [| reflexivity]
     end).
  exfalso. unfold numeric_fields in Hi.
  repeat (apply elem_of_cons in Hi; destruct Hi as [-> | Hi]); try congruence.
  apply elem_of_nil in Hi. exact Hi.
Qed.

(** C1 (what the code does): a 12-field record with a numeric field that
    [float] rejects raises [ValueError] out of the loop body; no handler
    catches it, so the loop ends there and none of the later datagrams is
    handled. *)
Theorem unparsable_number_ends_the_loop (s : Server) (m : string) (i : nat) :
  length (split "," (remove_spaces m)) = 12%nat →
  i ∈ numeric_fields →
  pyfloat (item (split "," (remove_spaces m)) i) = None →
  handle_datagram pyfloat s m = Raise ValueError
  ∧ ∀ rest, get_data pyfloat s (m :: rest) = Raise ValueError.
Proof.
  intros Hlen Hi Hnone.
  assert (H : handle_datagram pyfloat s m = Raise ValueError).
  { unfold handle_datagram. rewrite (twelve_fields_not_empty m Hlen), Hlen.
    cbn [Nat.eqb negb]. rewrite (build_data_raises _ i Hi Hnone). reflexivity. }
  split; [exact H |]. intros rest. cbn [get_data]. rewrite H. reflexivity.
Qed.

(** The display is written by the loop and never read: two servers that
    differ in it only are handled alike. *)
Lemma handle_datagram_core (s1 s2 : Server) (m : string) :
  core s1 = core s2 →
  res_core (handle_datagram pyfloat s1 m) = res_core (handle_datagram pyfloat s2 m).
Proof.
  intros Hc. destruct s1, s2. unfold core, set_display in Hc. cbn in Hc.
  injection Hc as -> -> -> -> -> -> -> -> -> -> ->.
  unfold handle_datagram. destruct (String.eqb m ""); [reflexivity |].
  destruct (negb _); [reflexivity |].
  (* a well-formed record overwrites every field of the display *)
  destruct (build_data pyfloat _) as [data| |]; reflexivity.
Qed.

Lemma get_data_core (stream : list string) (s1 s2 : Server) :
  core s1 = core s2 →
  res_core (get_data pyfloat s1 stream) = res_core (get_data pyfloat s2 stream).
Proof.
  revert s1 s2. induction stream as [| m rest IH]; intros s1 s2 Hc.
  - cbn. rewrite Hc. reflexivity.
  - cbn [get_data]. pose proof (handle_datagram_core s1 s2 m Hc) as Hm.
    destruct (handle_datagram pyfloat s1 m) as [t1| |],
             (handle_datagram pyfloat s2 m) as [t2| |];
      cbn [res_core bind] in *; try discriminate Hm; try exact Hm.
    apply IH. congruence.
Qed.

(** C9: a record whose field count is not 12 is dropped without an
    exception; histories, flags, [last_action], settings and the sink are
    as before (only the connection indicator of the window may have turned
    on), and the loop handles the datagrams that follow exactly as if the
    record had not been received. *)
Theorem wrong_field_count_is_dropped (s : Server) (m : string) :
  length (split "," (remove_spaces m)) ≠ 12%nat →
  ∃ s', handle_datagram pyfloat s m = Ok s'
        ∧ core s' = core s
        ∧ ∀ rest, res_core (get_data pyfloat s (m :: rest))
                  = res_core (get_data pyfloat s rest).
Proof.
  intros Hlen.
  assert (H : ∃ s', handle_datagram pyfloat s m = Ok s' ∧ core s' = core s).
  { unfold handle_datagram. destruct (String.eqb m ""); [eauto |].
    apply Nat.eqb_neq in Hlen. rewrite Hlen. cbn [negb]. eauto. }
  destruct H as (s' & Hh & Hc). exists s'. repeat split; try assumption.
  intros rest. cbn [get_data]. rewrite Hh. cbn [bind].
  apply get_data_core. exact Hc.
Qed.

End IngestionProperties.

Lemma unparsable_number_ends_the_loop_witness :
  handle_datagram PyFloat.float_of_string (init default_settings 0)
    "x,LS,1,1,1,0,0,0,0,5,0,0" = Raise ValueError
  ∧ ∀ rest, get_data PyFloat.float_of_string (init default_settings 0)
              ("x,LS,1,1,1,0,0,0,0,5,0,0" :: rest) = Raise ValueError.
Proof.
  apply (unparsable_number_ends_the_loop PyFloat.float_of_string
           (init default_settings 0) "x,LS,1,1,1,0,0,0,0,5,0,0" 0).
  - reflexivity.
  - apply (bool_decide_unpack _). reflexivity.
  - reflexivity.
Defined.

Lemma wrong_field_count_is_dropped_witness :
  ∃ s', handle_datagram PyFloat.float_of_string (init default_settings 0)
          "0.5,LS,1,1,1,0,0,0,0,5" = Ok s'
        ∧ core s' = core (init default_settings 0)
        ∧ ∀ rest,
            res_core (get_data PyFloat.float_of_string (init default_settings 0)
                        ("0.5,LS,1,1,1,0,0,0,0,5" :: rest))
            = res_core (get_data PyFloat.float_of_string (init default_settings 0) rest).
Proof.
  apply (wrong_field_count_is_dropped PyFloat.float_of_string
           (init default_settings 0) "0.5,LS,1,1,1,0,0,0,0,5").
  cbn. lia.
Defined.

(** ** The scenario of the specification *)




(** ** The experiment runner *)

Lemma Qle_bool_false (x y : Q) : Qle_bool x y = false → (y < x)%Q.
Proof.
  intros H. apply Qnot_le_lt. intros Hle. apply Qle_bool_iff in Hle. congruence.
Qed.

Lemma last_action_deliver (a : option string) (s : Server) :
  last_action (deliver a s) = match a with Some g => g | None => last_action s end.
Proof. destruct a; reflexivity. Qed.

Lemma settings_deliver (a : option string) (s : Server) :
  settings (deliver a s) = settings s.
Proof. destruct a; reflexivity. Qed.

Lemma misses_readable st interaction a : misses st interaction a → readable st a.
Proof. intros [H | (b & H & _)]; [left | right]; eauto. Qed.

Section Poll.

Variable env : Env.
Variable st : gmap string Binding.
Variable interaction : string.
Variable start : Q.

Hypothesis sleep_lower : ∀ k, (1 # 10 <= sleep_time env k)%Q.

(** The polling loop returns: after [n] more sleeps the three seconds are
    over.  It keeps the settings, leaves a readable [last_action], reports
    no match only past the time limit, and reports no match when nothing
    it reads matches. *)
Lemma poll_spec (n : nat) :
  ∀ (fuel : nat) (w : World),
    (n < fuel)%nat →
    (3 < now w - start + tenths n)%Q →
    settings (srv w) = st →
    readable st (last_action (srv w)) →
    (∀ k a, (polls w <= k < polls w + n)%nat → arrival env k = Some a → readable st a) →
    ∃ r, poll fuel env interaction start w = Ok r
         ∧ settings (srv (snd r)) = st
         ∧ readable st (last_action (srv (snd r)))
         ∧ (fst r = false → (3 < now (snd r) - start)%Q)
         ∧ (∀ g, (∀ k, (sleep_time env k <= g)%Q) →
                 (now w - start <= 3 + g)%Q → (now (snd r) - start <= 3 + g)%Q)
         ∧ (misses st interaction (last_action (srv w)) →
            (∀ k a, (polls w <= k < polls w + n)%nat → arrival env k = Some a →
                    misses st interaction a) →
            fst r = false).
Proof.
  induction n as [| n IH]; intros fuel w Hfuel Htime Hst Hread Harr;
    (destruct fuel as [| fuel]; [lia |]); cbn [poll];
    destruct (Qle_bool (now w - start) 3) eqn:Etest;
    try (apply Qle_bool_false in Etest; eexists; cbn [fst snd];
         repeat split; eauto; fail).
  - apply Qle_bool_iff in Etest. cbn [tenths] in Htime. lra.
  - apply Qle_bool_iff in Etest. cbn [tenths] in Htime.
    set (s := deliver (arrival env (polls w)) (srv w)).
    assert (Hs : settings s = st) by (subst s; rewrite settings_deliver; exact Hst).
    assert (Hrs : readable st (last_action s)).
    { subst s. rewrite last_action_deliver.
      destruct (arrival env (polls w)) as [a|] eqn:Ea; [| exact Hread].
      apply (Harr (polls w)); [lia | exact Ea]. }
    assert (Hms : misses st interaction (last_action (srv w)) →
                  (∀ k a, (polls w <= k < polls w + S n)%nat → arrival env k = Some a →
                          misses st interaction a) →
                  misses st interaction (last_action s)).
    { intros Hm0 Hm. subst s. rewrite last_action_deliver.
      destruct (arrival env (polls w)) as [a|] eqn:Ea; [| exact Hm0].
      apply (Hm (polls w)); [lia | exact Ea]. }
    pose proof (sleep_lower (polls w)) as Hlo.
    assert (Hrec : ∀ s0, settings s0 = st → last_action s0 = "" →
              ∃ r, poll fuel env interaction start (sleep env s0 w) = Ok r
                   ∧ settings (srv (snd r)) = st
                   ∧ readable st (last_action (srv (snd r)))
                   ∧ (fst r = false → (3 < now (snd r) - start)%Q)
                   ∧ (∀ g, (∀ k, (sleep_time env k <= g)%Q) →
                           (now w - start <= 3 + g)%Q → (now (snd r) - start <= 3 + g)%Q)
                   ∧ ((∀ k a, (polls w <= k < polls w + S n)%nat → arrival env k = Some a →
                              misses st interaction a) →
                      fst r = false)).
    { intros s0 Hs0 Hl0.
      destruct (IH fuel (sleep env s0 w)) as (r & Hr & H1 & H2 & H3 & H4 & H5).
      - lia.
      - cbn [sleep now]. lra.
      - exact Hs0.
      - cbn [sleep srv]. left. exact Hl0.
      - cbn [sleep polls]. intros k a Hk. apply Harr. lia.
      - exists r. repeat split; try assumption.
        + intros g Hg _. apply H4; [exact Hg |]. cbn [sleep now].
          pose proof (Hg (polls w)). lra.
        + intros Hm. apply H5.
          * cbn [sleep srv]. left. exact Hl0.
          * cbn [sleep polls]. intros k a Hk. apply Hm. lia. }
    destruct (String.eqb (last_action s) "") eqn:Eempty.
    + apply String.eqb_eq in Eempty.
      destruct (Hrec s Hs Eempty) as (r & Hr & H1 & H2 & H3 & H4 & H5).
      exists r. repeat split; auto.
    + apply String.eqb_neq in Eempty.
      destruct Hrs as [Hrs | [b Hb]]; [contradiction |].
      unfold getitem. rewrite Hs, Hb. cbn [bind].
      destruct (String.eqb (Interaction b) interaction) eqn:Ematch.
      * eexists. split; [reflexivity |]. cbn [fst snd srv now].
        repeat split; try (left; reflexivity); try discriminate; auto.
        intros Hm0 Hm. apply String.eqb_eq in Ematch.
        destruct (Hms Hm0 Hm) as [He | (b' & Hb' & Hne)]; [contradiction |].
        congruence.
      * destruct (Hrec (clear_last_action s) Hs eq_refl) as (r & Hr & H1 & H2 & H3 & H4 & H5).
        exists r. repeat split; auto.
Qed.

End Poll.

(** ** Rounding to milliseconds *)

Lemma round_half_even_bounds (q : Q) :
  (Qfloor q <= round_half_even q)%Z
  ∧ (inject_Z (round_half_even q) <= q + (1 # 2))%Q.
Proof.
  unfold round_half_even. pose proof (Qfloor_le q) as Hfl.
  assert (H1 : inject_Z (Qfloor q + 1) = (inject_Z (Qfloor q) + 1)%Q)
    by apply inject_Z_plus.
  destruct (Qcompare_spec (q - inject_Z (Qfloor q)) (1 # 2)) as [He | Hl | Hg].
  - destruct (Z.even (Qfloor q)); split; try lia; try rewrite H1; lra.
  - split; [lia | lra].
  - split; [lia | rewrite H1; lra].
Qed.

Lemma Qmake_thousandth (z : Z) : (z # 1000 == inject_Z z * (1 # 1000))%Q.
Proof. unfold Qeq. cbn. lia. Qed.

Lemma round3_upper (q : Q) : (round3 q <= q + (1 # 2000))%Q.
Proof.
  unfold round3. rewrite Qmake_thousandth.
  destruct (round_half_even_bounds (q * 1000)) as [_ H]. lra.
Qed.

Lemma round3_at_least_3 (q : Q) : (3 < q)%Q → (3 <= round3 q)%Q.
Proof.
  intros Hq. unfold round3.
  destruct (round_half_even_bounds (q * 1000)) as [H _].
  assert (Hf : (3000 <= Qfloor (q * 1000))%Z).
  { rewrite <- (Qfloor_Z 3000). apply Qfloor_resp_le.
    change (inject_Z 3000) with (3000 # 1)%Q. lra. }
  unfold Qle. cbn. lia.
Qed.

(** C6, as the specification states it, fails: a gesture from a zone
    that the settings do not know has no binding, so it does not match the
    required interaction; when the runner reads it the lookup raises
    [KeyError] and the trial records no result at all. *)
Lemma unknown_gesture_ends_trial_without_row :
  settings_demo !! "XXTU" = None
  ∧ chosen env_unknown 0 = "Play/Pause"
  ∧ trial 32 env_unknown 0 world_demo = Raise (KeyError "XXTU").
Proof. vm_compute. repeat split; reflexivity. Qed.

(** C6, amended: a trial in which everything read from [last_action] is
    empty or bound in the settings to an interaction other than the
    required one ends by timeout: the row has [found = False], the
    measured time is past the 3 second limit by at most one sleep, and the
    recorded time is that value rounded to milliseconds.  [g] is the
    longest a [time.sleep(0.1)] takes. *)
Theorem unmatched_trial_times_out (env : Env) (fuel i : nat) (w : World) (g : Q) :
  (32 <= fuel)%nat →
  (∀ k, (1 # 10 <= sleep_time env k)%Q ∧ (sleep_time env k <= g)%Q) →
  misses (settings (srv w)) (chosen env i) (last_action (srv w)) →
  (∀ k a, (polls w <= k < polls w + 31)%nat → arrival env k = Some a →
          misses (settings (srv w)) (chosen env i) a) →
  ∃ row w',
    trial fuel env i w = Ok (row, w')
    ∧ required row = chosen env i
    ∧ found row = false
    ∧ elapsed row = round3 (now w' - now w)
    ∧ (3 < now w' - now w)%Q ∧ (now w' - now w <= 3 + g)%Q
    ∧ (3 <= elapsed row)%Q ∧ (elapsed row <= 3 + g + (1 # 2000))%Q.
Proof.
  intros Hfuel Hsleep Hm0 Hm.
  destruct (poll_spec env (settings (srv w)) (chosen env i) (now w)
              (fun k => proj1 (Hsleep k)) 31 fuel w)
    as (r & Hr & _ & _ & Hlate & Hbound & Hmiss).
  - lia.
  - cbn. lra.
  - reflexivity.
  - eapply misses_readable. exact Hm0.
  - intros k a Hk Ha. eapply misses_readable. exact (Hm k a Hk Ha).
  - specialize (Hmiss Hm0 Hm). specialize (Hlate Hmiss).
    assert (Hup : (now (snd r) - now w <= 3 + g)%Q).
    { apply Hbound; [intros k; apply Hsleep |].
      destruct (Hsleep 0%nat). lra. }
    exists (mkRow (chosen env i) (round3 (now (snd r) - now w)) (fst r)
              (interaction_mode env i)), (snd r).
    unfold trial. rewrite Hr. cbn [bind required found elapsed].
    repeat split; try assumption.
    + apply round3_at_least_3. exact Hlate.
    + pose proof (round3_upper (now (snd r) - now w)). lra.
Qed.

Section Runs.

Variable env : Env.
Variable fuel : nat.
Variable st : gmap string Binding.

Hypothesis enough_fuel : (32 <= fuel)%nat.
Hypothesis sleep_lower : ∀ k, (1 # 10 <= sleep_time env k)%Q.
Hypothesis arrivals_readable : ∀ k a, arrival env k = Some a → readable st a.

Lemma trial_returns (i : nat) (w : World) :
  settings (srv w) = st →
  readable st (last_action (srv w)) →
  ∃ row w', trial fuel env i w = Ok (row, w')
            ∧ required row = chosen env i
            ∧ mode row = interaction_mode env i
            ∧ settings (srv w') = st
            ∧ readable st (last_action (srv w')).
Proof.
  intros Hst Hread.
  destruct (poll_spec env st (chosen env i) (now w) sleep_lower 31 fuel w)
    as (r & Hr & Hs & Hl & _).
  - lia.
  - cbn. lra.
  - exact Hst.
  - exact Hread.
  - intros k a _. apply arrivals_readable.
  - unfold trial. rewrite Hr. cbn [bind]. eexists _, _.
    split; [reflexivity |]. cbn. auto.
Qed.

Lemma trials_return (range : list nat) :
  ∀ (acc : list Row) (w : World),
    settings (srv w) = st →
    readable st (last_action (srv w)) →
    ∃ rows w', trials fuel env range acc w = Ok ((acc ++ rows)%list, w')
               ∧ map required rows = map (chosen env) range
               ∧ map mode rows = map (interaction_mode env) range.
Proof.
  induction range as [| i range IH]; intros acc w Hst Hread; cbn [trials].
  - exists [], w. rewrite app_nil_r. auto.
  - destruct (trial_returns i w Hst Hread) as (row & w1 & Ht & Hreq & Hmode & Hst1 & Hread1).
    rewrite Ht. cbn [bind fst snd].
    destruct (IH (acc ++ [row])%list w1 Hst1 Hread1) as (rows & w' & Hr & Hq & Hm).
    exists (row :: rows), w'. rewrite Hr, <- app_assoc. cbn.
    rewrite Hreq, Hmode, Hq, Hm. auto.
Qed.

End Runs.

(** Whatever the run meets, if it comes to its end it has appended one row
    per trial. *)
Lemma trials_length (fuel : nat) (env : Env) (range : list nat) :
  ∀ (acc rows : list Row) (w w' : World),
    trials fuel env range acc w = Ok (rows, w') →
    length rows = (length acc + length range)%nat.
Proof.
  induction range as [| i range IH]; intros acc rows w w' H; cbn [trials] in H.
  - injection H as <- _. cbn. lia.
  - destruct (trial fuel env i w) as [r| |]; cbn [bind] in H; try discriminate H.
    apply IH in H. rewrite H, length_app. cbn. lia.
Qed.

Lemma start_experiment_length (fuel : nat) (env : Env) (w w' : World) (rows : list Row) :
  start_experiment fuel env w = Ok (rows, w') → length rows = 10%nat.
Proof.
  unfold start_experiment. intros H.
  destruct (trials fuel env (seq 0 10) [] _) as [[rs w1]| |] eqn:Et;
    cbn [bind fst snd] in H; try discriminate H.
  injection H as <- _. apply trials_length in Et. exact Et.
Qed.

(** C5, as the specification states it, fails: the zone label of a
    record is not validated, so with an experiment running a record from a
    zone "XX" leaves the gesture "XXTU" in [last_action]; the settings have
    no such key, the runner's lookup raises [KeyError], and the run ends
    without any row. *)
Lemma unknown_gesture_ends_run_without_rows :
  (∃ s', handle_datagram PyFloat.float_of_string
           (begin_experiment (init settings_demo 0)) "1,XX,0,0,0,0,0,0,0,0,0,"
         = Ok s'
         ∧ last_action s' = "XXTU")
  ∧ start_experiment 32 env_unknown world_demo = Raise (KeyError "XXTU")
  ∧ rows_of (start_experiment 32 env_unknown world_demo) = None.
Proof.
  split; [| split].
  - eexists. split; [vm_compute; reflexivity | reflexivity].
  - vm_compute. reflexivity.
  - vm_compute. reflexivity.
Qed.

(** C5, amended: a run in which every gesture left in [last_action] is a
    key of the settings, and every sleep lasts its tenth of a second,
    produces exactly 10 rows, one per trial and in trial order, whichever
    trials match or time out and whatever the mode. *)
Theorem start_experiment_produces_ten_rows (env : Env) (fuel : nat) (w : World) :
  (32 <= fuel)%nat →
  (∀ k, (1 # 10 <= sleep_time env k)%Q) →
  readable (settings (srv w)) (last_action (srv w)) →
  (∀ k a, arrival env k = Some a → readable (settings (srv w)) a) →
  ∃ rows w',
    start_experiment fuel env w = Ok (rows, w')
    ∧ length rows = 10%nat
    ∧ map required rows = map (chosen env) (seq 0 10)
    ∧ map mode rows = map (interaction_mode env) (seq 0 10)
    ∧ test_status (srv w') = false.
Proof.
  intros Hfuel Hsleep Hread Harr. unfold start_experiment.
  destruct (trials_return env fuel (settings (srv w)) Hfuel Hsleep Harr (seq 0 10) []
              (mkWorld (begin_experiment (srv w)) (now w) (polls w)))
    as (rows & w' & Hr & Hq & Hm).
  - reflexivity.
  - exact Hread.
  - rewrite Hr. cbn [bind fst snd app]. eexists _, _.
    split; [reflexivity |]. repeat split; try assumption.
    apply (f_equal (@length _)) in Hq. rewrite !length_map in Hq. exact Hq.
Qed.

Lemma unmatched_trial_times_out_witness :
  ∃ row w',
    trial 32 env_quiet 0 world_quiet = Ok (row, w')
    ∧ required row = chosen env_quiet 0
    ∧ found row = false
    ∧ elapsed row = round3 (now w' - now world_quiet)
    ∧ (3 < now w' - now world_quiet)%Q
    ∧ (now w' - now world_quiet <= 3 + (1 # 10))%Q
    ∧ (3 <= elapsed row)%Q
    ∧ (elapsed row <= 3 + (1 # 10) + (1 # 2000))%Q.
Proof.
  apply (unmatched_trial_times_out env_quiet 32 0 world_quiet (1 # 10)).
  - lia.
  - intros k. cbn. lra.
  - left. reflexivity.
  - intros k a _ Ha. discriminate Ha.
Defined.

Lemma start_experiment_produces_ten_rows_witness :
  ∃ rows w',
    start_experiment 32 env_demo world_demo = Ok (rows, w')
    ∧ length rows = 10%nat
    ∧ map required rows = map (chosen env_demo) (seq 0 10)
    ∧ map mode rows = map (interaction_mode env_demo) (seq 0 10)
    ∧ test_status (srv w') = false.
Proof.
  apply (start_experiment_produces_ten_rows env_demo 32 world_demo).
  - lia.
  - intros k. cbn. lra.
  - left. reflexivity.
  - intros k a. cbn. destruct (Nat.eqb k 3); [| discriminate].
    intros [= <-]. right. eexists. reflexivity.
Defined.

(** The demo run: the first trial is matched at its fourth poll, after
    three sleeps; the nine others time out after 31 sleeps. *)
Example demo_run_rows :
  rows_of (start_experiment 32 env_demo world_demo)
  = Some (mkRow "Play/Pause" (300 # 1000) true 2
          :: repeat (mkRow "Play/Pause" (3100 # 1000) false 2) 9).
Proof. vm_compute. reflexivity. Qed.

(** A gesture that is not a key of the settings raises [KeyError] in the
    runner: the run ends without a result. *)
Example unknown_gesture_stops_the_run :
  start_experiment 32
    (mkEnv (fun _ => 0%nat) (fun _ => 2%Z)
       (fun k => if Nat.eqb k 3 then Some "XXTU" else None) (fun _ => (1 # 10)%Q))
    world_demo
  = Raise (KeyError "XXTU").
Proof. vm_compute. reflexivity. Qed.

(** * Further properties *)

(** ** Field count *)

Lemma count_char_remove_spaces (s : string) :
  count_char "," (remove_spaces s) = count_char "," s.
Proof.
  induction s as [| c s IH]; [reflexivity |]. cbn [remove_spaces count_char].
  destruct (Ascii.eqb c " ") eqn:Esp.
  - apply Ascii.eqb_eq in Esp. subst c. cbn. exact IH.
  - cbn [count_char]. rewrite IH. reflexivity.
Qed.

(** [split] returns one field more than there are separators. *)
Lemma length_split (sep : ascii) (s : string) :
  length (split sep s) = S (count_char sep s).
Proof.
  induction s as [| c s IH]; [reflexivity |]. cbn [split count_char].
  destruct (Ascii.eqb c sep).
  - cbn. rewrite IH. reflexivity.
  - destruct (split sep s) as [| hd tl]; [discriminate IH |]. cbn in *. exact IH.
Qed.

(** X1: a datagram that does not contain exactly 11 commas is dropped,
    wherever its spaces are: the loop body returns without an exception,
    no attribute of the server changes, and the window keeps its readouts
    and its current action. *)
Theorem record_needs_eleven_commas (pyfloat : string → option float)
    (s : Server) (m : string) :
  count_char "," m ≠ 11%nat →
  ∃ s', handle_datagram pyfloat s m = Ok s'
        ∧ core s' = core s
        ∧ current_action_var (display s') = current_action_var (display s)
        ∧ readouts (display s') = readouts (display s).
Proof.
  intros Hn. unfold handle_datagram.
  destruct (String.eqb m ""); [eexists; repeat split; reflexivity |].
  rewrite length_split, count_char_remove_spaces.
  assert (Hneq : Nat.eqb (S (count_char "," m)) 12 = false)
    by (apply Nat.eqb_neq; lia).
  rewrite Hneq. cbn [negb]. eexists. repeat split; reflexivity.
Qed.

Lemma record_needs_eleven_commas_witness :
  ∃ s', handle_datagram PyFloat.float_of_string (init default_settings 0)
          "1, LS, 2 ,3" = Ok s'
        ∧ core s' = core (init default_settings 0)
        ∧ current_action_var (display s')
          = current_action_var (display (init default_settings 0))
        ∧ readouts (display s') = readouts (display (init default_settings 0)).
Proof.
  apply (record_needs_eleven_commas PyFloat.float_of_string
           (init default_settings 0) "1, LS, 2 ,3").
  cbn. lia.
Defined.

Section DecoderMore.

Variable pyfloat : string → option float.

(** [build_data] returns a sample or raises [ValueError]. *)
Lemma build_data_ok_or_value_error (m : list string) :
  (∃ data, build_data pyfloat m = Ok data) ∨ build_data pyfloat m = Raise ValueError.
Proof.
  unfold build_data, to_float.
  repeat
    (match goal with
     | |- context [pyfloat (item m ?k)] =>
         destruct (pyfloat (item m k)) eqn:?; cbn [bind]; [| right; reflexivity]
     end).
  left. eexists. reflexivity.
Qed.

(** X2: the construction of [data] returns a sample exactly when fields
    0 and 2 to 10 all convert, and then the sample holds field 0 as
    timestep, field 1 as zone, fields 2-4 as gyroscope, 5-7 as acceleration
    and 8-10 as rotation; it raises [ValueError] exactly when one of the
    ten does not convert; nothing else can happen. *)
Theorem build_data_outcome (m : list string) :
  (∀ data,
     build_data pyfloat m = Ok data ↔
     pyfloat (item m 0) = Some (Timestep data)
     ∧ item m 1 = Action data
     ∧ pyfloat (item m 2) = Some (vx (Gyroscope data))
     ∧ pyfloat (item m 3) = Some (vy (Gyroscope data))
     ∧ pyfloat (item m 4) = Some (vz (Gyroscope data))
     ∧ pyfloat (item m 5) = Some (vx (Acceleration data))
     ∧ pyfloat (item m 6) = Some (vy (Acceleration data))
     ∧ pyfloat (item m 7) = Some (vz (Acceleration data))
     ∧ pyfloat (item m 8) = Some (vx (Rotation data))
     ∧ pyfloat (item m 9) = Some (vy (Rotation data))
     ∧ pyfloat (item m 10) = Some (vz (Rotation data)))
  ∧ (build_data pyfloat m = Raise ValueError ↔
     ∃ i, i ∈ numeric_fields ∧ pyfloat (item m i) = None)
  ∧ ((∃ data, build_data pyfloat m = Ok data)
     ∨ build_data pyfloat m = Raise ValueError).
Proof.
  split; [| split].
  - intros data. unfold build_data, to_float. split.
    + repeat
        (match goal with
         | |- context [pyfloat (item m ?k)] =>
             destruct (pyfloat (item m k)) eqn:?; cbn [bind]; [| discriminate]
         end).
      intros [= <-]. cbn. repeat split; reflexivity.
    + intros (H0 & H1 & H2 & H3 & H4 & H5 & H6 & H7 & H8 & H9 & H10).
      rewrite H0, H2, H3, H4, H5, H6, H7, H8, H9, H10. cbn [bind]. rewrite H1.
      destruct data as [t a [] [] []]. reflexivity.
  - split.
    + unfold build_data, to_float. unfold numeric_fields.
      repeat
        (match goal with
         | |- context [pyfloat (item m ?k)] =>
             destruct (pyfloat (item m k)) eqn:?; cbn [bind];
             [| intros _; exists k; split;
                [apply (bool_decide_unpack _); reflexivity | assumption]]
         end).
      discriminate.
    + intros (i & Hi & Hnone). unfold build_data, to_float.
      repeat
        (match goal with
         | |- context [pyfloat (item m ?k)] =>
             destruct (pyfloat (item m k)) eqn:?; cbn [bind]; [| reflexivity]
         end).
      exfalso. unfold numeric_fields in Hi.
      repeat (apply elem_of_cons in Hi; destruct Hi as [-> | Hi]); try congruence.
      apply elem_of_nil in Hi. exact Hi.
  - apply build_data_ok_or_value_error.
Qed.

Lemma twelve_fields (f : list string) :
  length f = 12%nat →
  ∃ a0 a1 a2 a3 a4 a5 a6 a7 a8 a9 a10 a11,
    f = [a0; a1; a2; a3; a4; a5; a6; a7; a8; a9; a10; a11].
Proof.
  intros H. do 12 (destruct f as [| ? f]; [discriminate H |]).
  destruct f; [| discriminate H]. repeat eexists.
Qed.

(** X3: the twelfth field is never read: two records of 12 fields that
    agree on the first eleven are handled alike, exception included. *)
Theorem twelfth_field_is_ignored (s : Server) (m1 m2 : string) :
  length (split "," (remove_spaces m1)) = 12%nat →
  length (split "," (remove_spaces m2)) = 12%nat →
  take 11 (split "," (remove_spaces m1)) = take 11 (split "," (remove_spaces m2)) →
  handle_datagram pyfloat s m1 = handle_datagram pyfloat s m2.
Proof.
  intros H1 H2 Ht. unfold handle_datagram.
  rewrite (twelve_fields_not_empty m1 H1), (twelve_fields_not_empty m2 H2), H1, H2.
  cbn [Nat.eqb negb].
  destruct (twelve_fields _ H1) as (a0&a1&a2&a3&a4&a5&a6&a7&a8&a9&a10&a11&E1).
  destruct (twelve_fields _ H2) as (b0&b1&b2&b3&b4&b5&b6&b7&b8&b9&b10&b11&E2).
  rewrite E1, E2 in Ht |- *. cbn in Ht. injection Ht as -> -> -> -> -> -> -> -> -> -> ->.
  reflexivity.
Qed.

End DecoderMore.

Lemma twelfth_field_is_ignored_witness :
  handle_datagram PyFloat.float_of_string (init default_settings 0)
    "0.5,LS,1,1,1,0,0,0,0,5,0,"
  = handle_datagram PyFloat.float_of_string (init default_settings 0)
      "0.5, LS, 1, 1, 1, 0, 0, 0, 0, 5, 0, not a number".
Proof.
  apply (twelfth_field_is_ignored PyFloat.float_of_string (init default_settings 0)
           "0.5,LS,1,1,1,0,0,0,0,5,0,"
           "0.5, LS, 1, 1, 1, 0, 0, 0, 0, 5, 0, not a number");
    vm_compute; reflexivity.
Defined.

(** ** A sample that repeats the history *)

(** [x - x] is a zero, or NaN when [x] is infinite or NaN. *)
Lemma sub_diag_zero_or_nan (x : float) :
  Prim2SF (x - x) = S754_nan ∨ ∃ sg, Prim2SF (x - x) = S754_zero sg.
Proof.
  rewrite sub_spec. unfold SF64sub.
  destruct (Prim2SF x) as [sg | sg | | sg m e]; cbn [SFsub].
  - right. destruct sg; eexists; reflexivity.
  - left. destruct sg; reflexivity.
  - left. reflexivity.
  - right. rewrite Z.sub_diag. cbn [binary_normalize]. eexists. reflexivity.
Qed.

(** Nothing is below the magnitude of a zero or of NaN among such
    magnitudes, and neither is above 0. *)
Lemma no_tilt_between_zero_or_nan (dx dy : float) :
  (Prim2SF dx = S754_nan ∨ ∃ sg, Prim2SF dx = S754_zero sg) →
  (Prim2SF dy = S754_nan ∨ ∃ sg, Prim2SF dy = S754_zero sg) →
  PrimFloat.ltb (abs dy) (abs dx) = false ∧ PrimFloat.ltb 0 dy = false.
Proof.
  intros Hx Hy. rewrite !FloatAxioms.ltb_spec, !abs_spec.
  change (Prim2SF 0) with (S754_zero false).
  destruct Hx as [-> | [sx ->]], Hy as [-> | [sy ->]]; split; reflexivity.
Qed.

(** X4: a sample whose rotation x and y are those of the stored history
    is classified "TU", for every float, NaN and the infinities included:
    a resting device reads as tilt up. *)
Theorem repeated_rotation_reads_tilt_up (s : Server) (gyro acc rot : Vec3) :
  vx rot = vx (rotation_history s) →
  vy rot = vy (rotation_history s) →
  fst (get_tilt_kind s gyro acc rot) = "TU".
Proof.
  intros Hx Hy. unfold get_tilt_kind. cbn [fst]. rewrite Hx, Hy.
  destruct (no_tilt_between_zero_or_nan _ _
              (sub_diag_zero_or_nan (vx (rotation_history s)))
              (sub_diag_zero_or_nan (vy (rotation_history s)))) as [-> ->].
  reflexivity.
Qed.

Lemma repeated_rotation_reads_tilt_up_witness :
  fst (get_tilt_kind
         (snd (get_tilt_kind (init default_settings 0) zero3 zero3 (mkVec3 infinity 2 1)))
         (mkVec3 1 1 1) zero3 (mkVec3 infinity 2 7)) = "TU".
Proof.
  apply (repeated_rotation_reads_tilt_up
           (snd (get_tilt_kind (init default_settings 0) zero3 zero3 (mkVec3 infinity 2 1)))
           (mkVec3 1 1 1) zero3 (mkVec3 infinity 2 7)); reflexivity.
Defined.

(** ** What the dispatcher can raise *)

(** The classifier returns one of the four suffixes. *)
Lemma tilt_is_a_code (s : Server) (gyro acc rot : Vec3) :
  fst (get_tilt_kind s gyro acc rot) ∈ tilt_codes.
Proof.
  unfold get_tilt_kind, tilt_codes. cbn [fst].
  repeat match goal with |- context [if ?c then _ else _] => destruct c end;
    apply (bool_decide_unpack _); reflexivity.
Qed.

(** X5: what a live dispatch can raise.  It raises [KeyError] on the
    gesture key when the settings have no entry for it, [KeyError] on the
    interaction name when the entry names no action of the table, and
    returns normally when the entry names one of the twelve [ACTIONS]. *)
Theorem live_dispatch_outcome (s : Server) (data : Sample) :
  active_status s = true →
  (settings s !! fst (classify s data) = None →
     execute_command s data = Raise (KeyError (fst (classify s data))))
  ∧ (∀ b, settings s !! fst (classify s data) = Some b →
          interaction_funcs !! Interaction b = None →
          execute_command s data = Raise (KeyError (Interaction b)))
  ∧ (∀ b, settings s !! fst (classify s data) = Some b →
          Interaction b ∈ ACTIONS →
          ∃ s', execute_command s data = Ok s').
Proof.
  intros Ha. repeat split.
  - intros Hn. unfold execute_command, classify, get_tilt_kind in *.
    cbn [fst snd set_display set_histories active_status settings] in *.
    rewrite Ha. unfold getitem. rewrite Hn. reflexivity.
  - intros b Hb Hn. unfold execute_command, classify, get_tilt_kind in *.
    cbn [fst snd set_display set_histories active_status settings] in *.
    rewrite Ha. unfold getitem. rewrite Hb. cbn [bind]. rewrite Hn. reflexivity.
  - intros b Hb Hin.
    assert (Hf : is_Some (interaction_funcs !! Interaction b)).
    { apply interaction_funcs_total. unfold ACTIONS in Hin.
      unfold parameterized_kinds, plain_kinds. cbn [app].
      repeat (apply elem_of_cons in Hin; destruct Hin as [-> | Hin]);
        try (apply (bool_decide_unpack _); reflexivity).
      apply elem_of_nil in Hin. destruct Hin. }
    destruct Hf as [fn Hf].
    destruct (execute_command_live s data b fn Ha Hb Hf) as (s' & He & _).
    exists s'. exact He.
Qed.

Lemma live_dispatch_outcome_witness :
  let s := toggle_activation (init default_settings 0) in
  let data := mkSample 1 "LeftScreen" zero3 zero3 (mkVec3 0 5 0) in
  (settings s !! fst (classify s data) = None →
     execute_command s data = Raise (KeyError (fst (classify s data))))
  ∧ (∀ b, settings s !! fst (classify s data) = Some b →
          interaction_funcs !! Interaction b = None →
          execute_command s data = Raise (KeyError (Interaction b)))
  ∧ (∀ b, settings s !! fst (classify s data) = Some b →
          Interaction b ∈ ACTIONS →
          ∃ s', execute_command s data = Ok s').
Proof.
  intros s data. apply (live_dispatch_outcome s data). reflexivity.
Defined.

(** X6: the default settings cover the four zones of the settings tab:
    for a sample from zone LS, RS, TS or BS the gesture key is bound, to
    "Not Used", whatever the tilt, so a live dispatch returns normally and
    leaves the sink alone. *)
Theorem default_settings_cover_the_zones (s : Server) (data : Sample) :
  settings s = default_settings →
  Action data ∈ zones →
  settings s !! fst (classify s data) = Some not_used_binding
  ∧ (active_status s = true →
     ∃ s', execute_command s data = Ok s' ∧ sink s' = sink s).
Proof.
  intros Hs Hz.
  assert (Hk : settings s !! fst (classify s data) = Some not_used_binding).
  { rewrite Hs. unfold classify. cbn [fst].
    pose proof (tilt_is_a_code s (Gyroscope data) (Acceleration data) (Rotation data)) as Ht.
    destruct (fst (get_tilt_kind s _ _ _)) eqn:E; clear E;
      unfold zones, tilt_codes in *;
      repeat (apply elem_of_cons in Hz; destruct Hz as [-> | Hz]);
      try (apply elem_of_nil in Hz; destruct Hz);
      repeat (apply elem_of_cons in Ht; destruct Ht as [Ht | Ht]);
      try (apply elem_of_nil in Ht; destruct Ht);
      try discriminate Ht; injection Ht as -> ->; reflexivity. }
  split; [exact Hk |]. intros Ha.
  destruct (execute_command_live s data not_used_binding (not_used, false) Ha Hk eq_refl)
    as (s' & He & _ & Hsink).
  exists s'. split; assumption.
Qed.

Lemma default_settings_cover_the_zones_witness :
  let s := toggle_activation (init default_settings 0) in
  let data := mkSample 1 "BS" zero3 zero3 (mkVec3 (-3) 1 0) in
  settings s !! fst (classify s data) = Some not_used_binding
  ∧ (active_status s = true →
     ∃ s', execute_command s data = Ok s' ∧ sink s' = sink s).
Proof.
  intros s data. apply (default_settings_cover_the_zones s data).
  - reflexivity.
  - apply (bool_decide_unpack _). reflexivity.
Defined.

(** ** What the events never write *)

Lemma execute_command_frame (s s' : Server) (data : Sample) :
  execute_command s data = Ok s' →
  settings s' = settings s
  ∧ accellerometer_history s' = accellerometer_history s
  ∧ active_status s' = active_status s
  ∧ test_status s' = test_status s
  ∧ rotation_history s' = Rotation data
  ∧ gyroscope_history s' = Gyroscope data
  ∧ accelerometer_history s' = Some (Acceleration data).
Proof.
  unfold execute_command, classify, get_tilt_kind.
  cbn [fst snd set_display set_histories active_status test_status settings].
  destruct (active_status s) eqn:Ha.
  - unfold getitem. destruct (settings s !! _) as [b|]; [| discriminate].
    cbn [bind]. destruct (interaction_funcs !! _) as [fn|]; [| discriminate].
    cbn [bind]. unfold call.
    destruct (snd fn); destruct (Nat.eqb _ _); try discriminate;
      intros [= <-]; cbn; rewrite ?Ha; auto 10.
  - destruct (test_status s) eqn:Ht; intros [= <-]; cbn; rewrite ?Ha, ?Ht; auto 10.
Qed.

Section StreamProperties.

Variable pyfloat : string → option float.

Lemma handle_datagram_frame (s s' : Server) (m : string) :
  handle_datagram pyfloat s m = Ok s' →
  settings s' = settings s
  ∧ accellerometer_history s' = accellerometer_history s
  ∧ active_status s' = active_status s
  ∧ test_status s' = test_status s.
Proof.
  unfold handle_datagram. destruct (String.eqb m ""); [intros [= <-]; auto |].
  destruct (negb _); [intros [= <-]; auto |].
  destruct (build_data pyfloat _) as [data| |]; cbn [bind]; try discriminate.
  intros H. apply execute_command_frame in H.
  destruct H as (H1 & H2 & H3 & H4 & _). auto.
Qed.

(** X7: no sequence of button presses, run starts, run ends and
    datagrams writes the settings, or the [accellerometer_history] created
    by [__init__] (the classifier assigns an attribute spelt differently). *)
Theorem events_never_write_settings (es : list Event) :
  ∀ s s', run pyfloat s es = Ok s' →
          settings s' = settings s
          ∧ accellerometer_history s' = accellerometer_history s.
Proof.
  induction es as [| e es IH]; intros s s' H; cbn [run] in H.
  - injection H as <-. auto.
  - destruct (step pyfloat s e) as [s1| |] eqn:Es; cbn [bind] in H; try discriminate H.
    apply IH in H. destruct H as [H1 H2]. rewrite H1, H2.
    destruct e; cbn [step] in Es.
    + injection Es as <-. unfold toggle_activation.
      destruct (active_status s); auto.
    + injection Es as <-. auto.
    + injection Es as <-. auto.
    + apply handle_datagram_frame in Es. destruct Es as (? & ? & _). auto.
Qed.

(** A datagram handled with [active_status] clear calls no action and
    raises nothing but [ValueError]. *)
Lemma handle_datagram_inactive (s : Server) (m : string) :
  active_status s = false →
  (∃ s', handle_datagram pyfloat s m = Ok s'
         ∧ sink s' = sink s ∧ calls s' = calls s
         ∧ active_status s' = false ∧ test_status s' = test_status s)
  ∨ handle_datagram pyfloat s m = Raise ValueError.
Proof.
  intros Ha. unfold handle_datagram.
  destruct (String.eqb m ""); [left; eexists; split; [reflexivity | auto] |].
  destruct (negb _); [left; eexists; split; [reflexivity | cbn; auto] |].
  destruct (build_data_ok_or_value_error pyfloat (split "," (remove_spaces m)))
    as [[data ->] | ->]; [| right; reflexivity].
  left. cbn [bind]. unfold execute_command, classify, get_tilt_kind.
  cbn [fst snd set_display set_histories active_status test_status]. rewrite Ha.
  destruct (test_status s) eqn:Ht; eexists; (split; [reflexivity |]); cbn; auto.
Qed.

(** X8: while interaction is disabled the ingestion loop never reaches
    the sink, whatever the stream and whether an experiment runs or not:
    either it handles the whole stream with the sink, the call trace and
    both mode flags as they were, or it ends with [ValueError]; it cannot
    raise [KeyError]. *)
Theorem inactive_stream_never_reaches_the_sink (stream : list string) :
  ∀ s, active_status s = false →
       (∃ s', get_data pyfloat s stream = Ok s'
              ∧ sink s' = sink s ∧ calls s' = calls s
              ∧ active_status s' = false ∧ test_status s' = test_status s)
       ∨ get_data pyfloat s stream = Raise ValueError.
Proof.
  induction stream as [| m rest IH]; intros s Ha; cbn [get_data].
  - left. exists s. auto.
  - destruct (handle_datagram_inactive s m Ha)
      as [(s1 & -> & Hk & Hc & Ha1 & Ht1) | ->]; [| right; reflexivity].
    cbn [bind]. destruct (IH s1 Ha1) as [(s' & -> & Hk' & Hc' & Ha' & Ht') | ->].
    + left. exists s'. split; [reflexivity |]. repeat split; congruence.
    + right. reflexivity.
Qed.

End StreamProperties.

Lemma events_never_write_settings_witness :
  let s := init default_settings 0 in
  let s' :=
    match run PyFloat.float_of_string s
            [Toggle; Datagram "1,LS,0,0,0,0,0,0,2,1,0,"; StartRun; Toggle;
             Datagram "2,RS,0,0,0,0,0,0,0,4,0,"; FinishRun]
    with Ok t => t | _ => s end in
  settings s' = settings s
  ∧ accellerometer_history s' = accellerometer_history s.
Proof.
  intros s s'.
  apply (events_never_write_settings PyFloat.float_of_string
           [Toggle; Datagram "1,LS,0,0,0,0,0,0,2,1,0,"; StartRun; Toggle;
            Datagram "2,RS,0,0,0,0,0,0,0,4,0,"; FinishRun] s s').
  vm_compute. reflexivity.
Defined.

Lemma inactive_stream_never_reaches_the_sink_witness :
  let s := begin_experiment (init default_settings 0) in
  let stream := ["1,LS,0,0,0,0,0,0,2,1,0,"; "junk"; "2,XX,0,0,0,0,0,0,0,4,0,"] in
  (∃ s', get_data PyFloat.float_of_string s stream = Ok s'
         ∧ sink s' = sink s ∧ calls s' = calls s
         ∧ active_status s' = false ∧ test_status s' = test_status s)
  ∨ get_data PyFloat.float_of_string s stream = Raise ValueError.
Proof.
  intros s stream.
  apply (inactive_stream_never_reaches_the_sink PyFloat.float_of_string stream s).
  vm_compute. reflexivity.
Defined.

(** ** The effects of the action methods *)

(** X9: the effect of a live dispatch on the sink, by the bound kind:
    "Not Used", "Stop", "Seek +", "Seek -" and "Mute" change nothing;
    "Play/Pause", "Previous", "Next", "Scroll UP" and "Scroll DOWN" send
    the one key space, left, right, up, down and leave the volume;
    "Volume +" and "Volume -" send no key and move the master volume by
    2.0. *)
Theorem live_dispatch_effect (s : Server) (data : Sample) (b : Binding) :
  active_status s = true →
  settings s !! fst (classify s data) = Some b →
  Interaction b ∈ ACTIONS →
  ∃ s', execute_command s data = Ok s'
        ∧ (Interaction b ∈ idle_kinds → sink s' = sink s)
        ∧ (∀ key, (Interaction b, key) ∈ key_kinds →
                  keys_sent (sink s') = key :: keys_sent (sink s)
                  ∧ master_volume (sink s') = master_volume (sink s))
        ∧ (Interaction b = "Volume +" →
             keys_sent (sink s') = keys_sent (sink s)
             ∧ master_volume (sink s') = (master_volume (sink s) + 2)%float)
        ∧ (Interaction b = "Volume -" →
             keys_sent (sink s') = keys_sent (sink s)
             ∧ master_volume (sink s') = (master_volume (sink s) - 2)%float).
Proof.
  intros Ha Hb Hin.
  assert (Hf : ∃ fn, interaction_funcs !! Interaction b = Some fn) by
    (unfold ACTIONS in Hin;
     repeat (apply elem_of_cons in Hin; destruct Hin as [-> | Hin]);
     [eexists; reflexivity .. | apply elem_of_nil in Hin; destruct Hin]).
  destruct Hf as [fn Hf].
  destruct (execute_command_live s data b fn Ha Hb Hf) as (s' & He & _ & Hk).
  exists s'. split; [exact He |]. rewrite Hk. clear He Hk Ha Hb Hin.
  table_cases Hf; cbn [fst body];
    (refine (conj _ (conj _ (conj _ _)));
     [ intros Hi; first [ reflexivity
                        | exfalso; revert Hi; apply (bool_decide_unpack _); reflexivity ]
     | intros key Hi; unfold key_kinds in Hi;
       repeat (apply elem_of_cons in Hi; destruct Hi as [Hi | Hi]);
       try (apply elem_of_nil in Hi; destruct Hi);
       try discriminate Hi; injection Hi as <-; split; reflexivity
     | intros Hi; try discriminate Hi; split; reflexivity
     | intros Hi; try discriminate Hi; split; reflexivity ]).
Qed.

Lemma live_dispatch_effect_witness :
  let s := server_scroll in
  let data := mkSample 1 "LS" zero3 zero3 (mkVec3 0 5 0) in
  let b := mkBinding "Scroll DOWN" "Steps" in
  ∃ s', execute_command s data = Ok s'
        ∧ (Interaction b ∈ idle_kinds → sink s' = sink s)
        ∧ (∀ key, (Interaction b, key) ∈ key_kinds →
                  keys_sent (sink s') = key :: keys_sent (sink s)
                  ∧ master_volume (sink s') = master_volume (sink s))
        ∧ (Interaction b = "Volume +" →
             keys_sent (sink s') = keys_sent (sink s)
             ∧ master_volume (sink s') = (master_volume (sink s) + 2)%float)
        ∧ (Interaction b = "Volume -" →
             keys_sent (sink s') = keys_sent (sink s)
             ∧ master_volume (sink s') = (master_volume (sink s) - 2)%float).
Proof.
  intros s data b. apply (live_dispatch_effect s data b).
  - reflexivity.
  - vm_compute. reflexivity.
  - apply (bool_decide_unpack _). vm_compute. reflexivity.
Defined.

(** ** The settings tab *)

(** X10: [modify_setting] on a row of the settings tab writes the chosen
    field of that row: the row then reads the new value in that field and
    the old one in the other, every other row and every other attribute
    of the server is as before, and the row's type menu is enabled exactly
    when the row's interaction takes a parameter. *)
Theorem modify_setting_writes_one_field (value key : string) (field : Field)
    (s : Server) (b : Binding) :
  settings s !! key = Some b →
  key ∈ layout_keys →
  Interaction (set_field field value b) ∈ ACTIONS →
  ∃ s' state,
    modify_setting value key field s = Ok (s', state)
    ∧ settings s' !! key = Some (set_field field value b)
    ∧ (∀ k, k ≠ key → settings s' !! k = settings s !! k)
    ∧ set_settings (settings s) s' = s
    ∧ (state = "enabled" ↔ Interaction (set_field field value b) ∈ parameterized_kinds)
    ∧ (state = "disabled" ↔ Interaction (set_field field value b) ∈ plain_kinds).
Proof.
  intros Hb Hk Hin. unfold modify_setting, getitem. rewrite Hb. cbn [bind].
  cbn [settings set_settings]. rewrite lookup_insert_eq. cbn [bind].
  assert (Hf : ∃ fn, interaction_funcs !! Interaction (set_field field value b) = Some fn)
    by (unfold ACTIONS in Hin;
        repeat (apply elem_of_cons in Hin; destruct Hin as [-> | Hin]);
        [eexists; reflexivity .. | apply elem_of_nil in Hin; destruct Hin]).
  destruct Hf as [fn Hf]. rewrite Hf. cbn [bind].
  rewrite (bool_decide_eq_true_2 _ Hk).
  eexists _, _. split; [reflexivity |]. cbn [settings set_settings].
  split; [apply lookup_insert_eq |].
  split; [intros k Hne; apply lookup_insert_ne; congruence |].
  split; [destruct s; reflexivity |].
  destruct (interaction_funcs_flag _ _ Hf) as [Ht Hfalse].
  destruct (snd fn); split; split; intros H; try discriminate H;
    try reflexivity; first [ apply Ht | apply Hfalse | apply Ht in H | apply Hfalse in H ];
    try reflexivity; try discriminate H.
Qed.

Lemma modify_setting_writes_one_field_witness :
  ∃ s' state,
    modify_setting "Volume +" "RSTU" FInteraction (init default_settings 0)
    = Ok (s', state)
    ∧ settings s' !! "RSTU" = Some (set_field FInteraction "Volume +" not_used_binding)
    ∧ (∀ k, k ≠ "RSTU" → settings s' !! k = settings (init default_settings 0) !! k)
    ∧ set_settings (settings (init default_settings 0)) s' = init default_settings 0
    ∧ (state = "enabled" ↔
       Interaction (set_field FInteraction "Volume +" not_used_binding)
       ∈ parameterized_kinds)
    ∧ (state = "disabled" ↔
       Interaction (set_field FInteraction "Volume +" not_used_binding) ∈ plain_kinds).
Proof.
  apply (modify_setting_writes_one_field "Volume +" "RSTU" FInteraction
           (init default_settings 0) not_used_binding).
  - vm_compute. reflexivity.
  - apply (bool_decide_unpack _). vm_compute. reflexivity.
  - apply (bool_decide_unpack _). vm_compute. reflexivity.
Defined.

(** X15: a new interaction chosen in the settings tab is in force for the
    next sample: after [modify_setting] has written it for a gesture, a
    live sample classified as that gesture calls the new method, with the
    row's old ['Type'] when the method takes a parameter. *)
Theorem rebinding_takes_effect (value key : string) (s : Server) (data : Sample)
    (b : Binding) (fn : ActionFn * bool) :
  settings s !! key = Some b →
  key ∈ layout_keys →
  interaction_funcs !! value = Some fn →
  active_status s = true →
  fst (classify s data) = key →
  ∃ s1 state s2,
    modify_setting value key FInteraction s = Ok (s1, state)
    ∧ execute_command s1 data = Ok s2
    ∧ calls s2 = (fst fn, if snd fn then [Typ b] else []) :: calls s
    ∧ sink s2 = body (fst fn) (sink s).
Proof.
  intros Hb Hk Hf Ha Hc. unfold modify_setting, getitem. rewrite Hb. cbn [bind].
  cbn [settings set_settings]. rewrite lookup_insert_eq. cbn [bind set_field Interaction].
  rewrite Hf. cbn [bind]. rewrite (bool_decide_eq_true_2 _ Hk).
  set (s1 := set_settings (<[key := mkBinding value (Typ b)]> (settings s)) s).
  destruct (execute_command_live s1 data (mkBinding value (Typ b)) fn) as (s2 & He & Hcalls & Hsink).
  - exact Ha.
  - change (fst (classify s1 data)) with (fst (classify s data)). rewrite Hc.
    apply lookup_insert_eq.
  - exact Hf.
  - exists s1, (if snd fn then "enabled" else "disabled"), s2.
    split; [reflexivity |]. split; [exact He |]. split; assumption.
Qed.

Lemma rebinding_takes_effect_witness :
  ∃ s1 state s2,
    modify_setting "Next" "LSTD" FInteraction server_scroll = Ok (s1, state)
    ∧ execute_command s1 (mkSample 1 "LS" zero3 zero3 (mkVec3 0 5 0)) = Ok s2
    ∧ calls s2 = (fst (next, false), if snd (next, false) then [Typ (mkBinding "Scroll DOWN" "Steps")] else [])
                 :: calls server_scroll
    ∧ sink s2 = body (fst (next, false)) (sink server_scroll).
Proof.
  apply (rebinding_takes_effect "Next" "LSTD" server_scroll
           (mkSample 1 "LS" zero3 zero3 (mkVec3 0 5 0))
           (mkBinding "Scroll DOWN" "Steps") (next, false)).
  - vm_compute. reflexivity.
  - apply (bool_decide_unpack _). vm_compute. reflexivity.
  - vm_compute. reflexivity.
  - reflexivity.
  - vm_compute. reflexivity.
Defined.

(** ** More on the experiment runner *)



Section PollOutcome.

Variable env : Env.
Variable interaction : string.
Variable start : Q.

(** What a returning polling loop has done, whatever the environment: it
    exits with a match only within the time limit and on a gesture, read
    at its last poll, whose binding is the required interaction; it exits
    without one only past the limit; and it writes nothing of the server
    but [last_action]. *)
Lemma poll_outcome (fuel : nat) :
  ∀ (w : World) (r : bool * World),
    poll fuel env interaction start w = Ok r →
    clear_last_action (srv (snd r)) = clear_last_action (srv w)
    ∧ (polls w <= polls (snd r))%nat
    ∧ (fst r = false → (3 < now (snd r) - start)%Q)
    ∧ (fst r = true →
       (now (snd r) - start <= 3)%Q
       ∧ last_action (srv (snd r)) = ""
       ∧ ∃ k a b,
           (polls w <= k)%nat ∧ polls (snd r) = S k ∧ a ≠ ""
           ∧ (arrival env k = Some a
              ∨ (arrival env k = None ∧ k = polls w ∧ a = last_action (srv w)))
           ∧ settings (srv w) !! a = Some b
           ∧ Interaction b = interaction).
Proof.
  induction fuel as [| fuel IH]; intros w r H; cbn [poll] in H; [discriminate H |].
  destruct (Qle_bool (now w - start) 3) eqn:Etest.
  2: { injection H as <-. cbn [fst snd]. apply Qle_bool_false in Etest.
       repeat split; auto; discriminate. }
  apply Qle_bool_iff in Etest.
  set (s := deliver (arrival env (polls w)) (srv w)) in *.
  assert (Hcl : clear_last_action s = clear_last_action (srv w))
    by (subst s; destruct (arrival env (polls w)); reflexivity).
  assert (Hset : settings s = settings (srv w))
    by (subst s; apply settings_deliver).
  assert (Hrec : ∀ s0, clear_last_action s0 = clear_last_action (srv w) →
            last_action s0 = "" →
            poll fuel env interaction start (sleep env s0 w) = Ok r →
            clear_last_action (srv (snd r)) = clear_last_action (srv w)
            ∧ (polls w <= polls (snd r))%nat
            ∧ (fst r = false → (3 < now (snd r) - start)%Q)
            ∧ (fst r = true →
               (now (snd r) - start <= 3)%Q
               ∧ last_action (srv (snd r)) = ""
               ∧ ∃ k a b,
                   (polls w <= k)%nat ∧ polls (snd r) = S k ∧ a ≠ ""
                   ∧ (arrival env k = Some a
                      ∨ (arrival env k = None ∧ k = polls w ∧ a = last_action (srv w)))
                   ∧ settings (srv w) !! a = Some b
                   ∧ Interaction b = interaction)).
  { intros s0 Hs0 Hl0 Hp. apply IH in Hp. cbn [sleep srv polls] in Hp.
    destruct Hp as (H1 & H2 & H3 & H4).
    split; [congruence |]. split; [lia |]. split; [exact H3 |].
    intros Hf. destruct (H4 Hf) as (Ht & Hl & k & a & b & Hk & Hp & Hne & Ha & Hb & Hi).
    split; [exact Ht |]. split; [exact Hl |].
    exists k, a, b. split; [lia |]. split; [exact Hp |]. split; [exact Hne |].
    split.
    - destruct Ha as [Ha | (_ & _ & Ha)]; [left; exact Ha |].
      exfalso. apply Hne. congruence.
    - split; [| exact Hi].
      replace (settings (srv w)) with (settings s0); [exact Hb |].
      apply (f_equal settings) in Hs0. exact Hs0. }
  destruct (String.eqb (last_action s) "") eqn:Eempty.
  - apply String.eqb_eq in Eempty. apply (Hrec s Hcl Eempty H).
  - apply String.eqb_neq in Eempty. unfold getitem in H.
    destruct (settings s !! last_action s) as [b|] eqn:Eb; [| discriminate H].
    cbn [bind] in H.
    destruct (String.eqb (Interaction b) interaction) eqn:Ematch.
    + injection H as <-. cbn [fst snd srv now polls].
      split; [rewrite <- Hcl; destruct s; reflexivity |].
      split; [lia |]. split; [discriminate |]. intros _.
      split; [exact Etest |]. split; [reflexivity |].
      exists (polls w), (last_action s), b.
      split; [lia |]. split; [reflexivity |]. split; [exact Eempty |].
      split.
      * subst s. rewrite last_action_deliver.
        destruct (arrival env (polls w)); [left | right]; auto.
      * split; [rewrite <- Hset; exact Eb | apply String.eqb_eq; exact Ematch].
    + apply (Hrec (clear_last_action s)); [| reflexivity | exact H].
      rewrite <- Hcl. destruct s; reflexivity.
Qed.

End PollOutcome.




(** Of the attributes of the server object, the runner writes
    [test_status] and [last_action] only. *)
Lemma trials_frame (fuel : nat) (env : Env) (range : list nat) :
  ∀ (acc rows : list Row) (w w' : World),
    trials fuel env range acc w = Ok (rows, w') →
    clear_last_action (srv w') = clear_last_action (srv w).
Proof.
  induction range as [| i range IH]; intros acc rows w w' H; cbn [trials] in H.
  - injection H as _ <-. reflexivity.
  - destruct (trial fuel env i w) as [[row w1]| |] eqn:Et; cbn [bind] in H;
      try discriminate H.
    cbn [fst snd] in H. apply IH in H. rewrite H. clear H.
    unfold trial in Et.
    destruct (poll fuel env (chosen env i) (now w) w) as [r| |] eqn:Ep;
      cbn [bind] in Et; try discriminate Et.
    injection Et as _ <-.
    apply (poll_outcome env (chosen env i) (now w) fuel w r Ep).
Qed.

(** X12: of the attributes of the server object, [start_experiment]
    writes [test_status] and [last_action] only: after a run that returns,
    [test_status] is [False] and settings, [active_status], sink, call
    trace, rotation history and [last_action_timestep] are, for the runner
    thread, what they were before. *)
Theorem start_experiment_frame (fuel : nat) (env : Env) (w w' : World)
    (rows : list Row) :
  start_experiment fuel env w = Ok (rows, w') →
  test_status (srv w') = false
  ∧ settings (srv w') = settings (srv w)
  ∧ active_status (srv w') = active_status (srv w)
  ∧ sink (srv w') = sink (srv w)
  ∧ calls (srv w') = calls (srv w)
  ∧ rotation_history (srv w') = rotation_history (srv w)
  ∧ last_action_timestep (srv w') = last_action_timestep (srv w).
Proof.
  unfold start_experiment. intros H.
  destruct (trials fuel env (seq 0 10) [] _) as [[rs w1]| |] eqn:Et;
    cbn [bind fst snd] in H; try discriminate H.
  injection H as _ <-. apply trials_frame in Et. cbn [srv] in *.
  destruct (srv w1), (srv w). unfold clear_last_action, set_last_action,
    begin_experiment, set_test_status, end_experiment in *. cbn in *.
  injection Et as -> -> -> -> -> -> -> -> -> ->. auto 10.
Qed.

Lemma slow_outcome_eq :
  start_experiment 2 env_slow world_quiet = Ok (fst slow_outcome, snd slow_outcome).
Proof. vm_compute. reflexivity. Qed.

Lemma start_experiment_frame_witness :
  test_status (srv (snd slow_outcome)) = false
  ∧ settings (srv (snd slow_outcome)) = settings (srv world_quiet)
  ∧ active_status (srv (snd slow_outcome)) = active_status (srv world_quiet)
  ∧ sink (srv (snd slow_outcome)) = sink (srv world_quiet)
  ∧ calls (srv (snd slow_outcome)) = calls (srv world_quiet)
  ∧ rotation_history (srv (snd slow_outcome)) = rotation_history (srv world_quiet)
  ∧ last_action_timestep (srv (snd slow_outcome))
    = last_action_timestep (srv world_quiet).
Proof.
  exact (start_experiment_frame 2 env_slow world_quiet (snd slow_outcome)
           (fst slow_outcome) slow_outcome_eq).
Defined.

Section Duration.

Variable env : Env.
Variable g : Q.

Hypothesis sleep_upper : ∀ k, (sleep_time env k <= g)%Q.

Lemma poll_time_bound (interaction : string) (start : Q) (fuel : nat) :
  ∀ (w : World) (r : bool * World),
    poll fuel env interaction start w = Ok r →
    (now w - start <= 3 + g)%Q →
    (now (snd r) - start <= 3 + g)%Q.
Proof.
  induction fuel as [| fuel IH]; intros w r H Hb; cbn [poll] in H; [discriminate H |].
  destruct (Qle_bool (now w - start) 3) eqn:Etest.
  2: { injection H as <-. exact Hb. }
  apply Qle_bool_iff in Etest. pose proof (sleep_upper (polls w)) as Hs.
  destruct (String.eqb _ "").
  - apply IH in H; [exact H |]. cbn [sleep now]. lra.
  - unfold getitem in H. destruct (_ !! _) as [b|]; [| discriminate H].
    cbn [bind] in H. destruct (String.eqb (Interaction b) interaction).
    + injection H as <-. exact Hb.
    + apply IH in H; [exact H |]. cbn [sleep now]. lra.
Qed.

Lemma trials_time_bound (fuel : nat) (range : list nat) :
  (0 <= g)%Q →
  ∀ (acc rows : list Row) (w w' : World),
    trials fuel env range acc w = Ok (rows, w') →
    (now w' - now w <= trial_budget g (length range))%Q.
Proof.
  intros Hg. induction range as [| i range IH]; intros acc rows w w' H;
    cbn [trials] in H.
  - injection H as _ <-. cbn. lra.
  - destruct (trial fuel env i w) as [[row w1]| |] eqn:Et; cbn [bind] in H;
      try discriminate H.
    cbn [fst snd] in H. apply IH in H. cbn [length trial_budget].
    unfold trial in Et.
    destruct (poll fuel env (chosen env i) (now w) w) as [r| |] eqn:Ep;
      cbn [bind] in Et; try discriminate Et.
    injection Et as _ <-.
    apply poll_time_bound in Ep; [| lra]. lra.
Qed.

End Duration.

(** X13: a run that returns has lasted at most ten times the limit plus
    one sleep: 30 + 10 g seconds when no sleep takes more than [g]. *)
Theorem run_lasts_at_most_ten_trials (fuel : nat) (env : Env) (g : Q)
    (w w' : World) (rows : list Row) :
  (0 <= g)%Q →
  (∀ k, (sleep_time env k <= g)%Q) →
  start_experiment fuel env w = Ok (rows, w') →
  (now w' - now w <= 30 + 10 * g)%Q.
Proof.
  intros Hg Hs H. unfold start_experiment in H.
  destruct (trials fuel env (seq 0 10) [] _) as [[rs w1]| |] eqn:Et;
    cbn [bind fst snd] in H; try discriminate H.
  injection H as _ <-. cbn [now].
  apply (trials_time_bound env g Hs fuel (seq 0 10) Hg) in Et.
  cbn [length seq trial_budget now] in Et. lra.
Qed.

Lemma run_lasts_at_most_ten_trials_witness :
  (now (snd slow_outcome) - now world_quiet <= 30 + 10 * 4)%Q.
Proof.
  apply (run_lasts_at_most_ten_trials 2 env_slow 4 world_quiet
           (snd slow_outcome) (fst slow_outcome)).
  - lra.
  - intros k. cbn. lra.
  - exact slow_outcome_eq.
Defined.

(** ** From the ingestion thread to the runner *)



